(** * crypto_analyzer_bot: users, admins and the command handlers

    A shallow embedding of [src/services/database.py] (the declarative
    schema) and of [main.py] (the handlers, the bootstrap of the first
    admins and the progress bar), with the
    properties of the user / role data model proved about it.

    Layout:
    - [Schema]           the tables of database.py, column by column;
    - [Orm]              the declared [relationship(..., cascade=...)]
                         attributes and the delete that follows them;
    - [DatabaseManager]  the persistence operations main.py calls;
    - [Py]               a state-and-exception monad for handler code;
    - [Main]             main.py: the two commands and the bootstrap;
    - [Progress]         main.py: the progress bar. *)

From Stdlib Require Import String List Bool ZArith QArith Lia DecimalString.
Import ListNotations.
Local Close Scope Q_scope.
Local Open Scope string_scope.
Local Open Scope list_scope.

Set Implicit Arguments.

(* ------------------------------------------------------------------ *)
(** ** Column types *)

(** [DateTime] columns hold a point in time; seconds since the epoch. *)
Definition DateTime : Type := Z.

(** [Float] columns.  No claim computes with them; they are only stored. *)
Definition Float : Type := Q.

(** [JSON] columns are opaque blobs, kept in serialised form. *)
Definition JSON : Type := string.

(* ------------------------------------------------------------------ *)
(** ** database.py *)

Module Schema.

(** [class TimeInterval(enum.Enum)] *)
Inductive TimeInterval : Type :=
| ONE_DAY | SEVEN_DAYS | THIRTY_DAYS | NINETY_DAYS.

Definition TimeInterval_value (i : TimeInterval) : Z :=
  match i with
  | ONE_DAY => 1 | SEVEN_DAYS => 7 | THIRTY_DAYS => 30 | NINETY_DAYS => 90
  end%Z.

(** [class UserType(enum.Enum)] *)
Inductive UserType : Type := GUEST | PREMIUM | BANNED.

Definition UserType_eqb (a b : UserType) : bool :=
  match a, b with
  | GUEST, GUEST | PREMIUM, PREMIUM | BANNED, BANNED => true
  | _, _ => false
  end.

(** [class AdminTypes(enum.Enum)] *)
Inductive AdminTypes : Type := MASTER | NORMAL | WATCHER.

(** [class Coin(Base)], table [coins]; primary key [id]. *)
Module Coin.
Record t : Type := mk {
  id : string;
  symbol : string;
  name : string;
  platforms : option JSON;
  extra_data : option JSON;
  last_updated : option DateTime
}.
End Coin.

(** [class CoinPrice(Base)], table [coin_prices]. *)
Module CoinPrice.
Record t : Type := mk {
  id : Z;
  coin_id : string;
  currency : string;
  price : option Float;
  market_cap : option Float;
  volume_24h : option Float;
  price_change_24h : option Float;
  last_updated : option DateTime
}.
End CoinPrice.

(** [class OHLC(Base)], table [ohlc]. *)
Module OHLC.
Record t : Type := mk {
  id : Z;
  coin_id : string;
  vs_currency : string;
  interval : TimeInterval;
  timestamp : DateTime;
  open : option Float;
  high : option Float;
  low : option Float;
  close : option Float;
  volume : option Float;
  market_cap : option Float;
  last_updated : option DateTime
}.
End OHLC.

(** [class TrendingCoin(Base)], table [trending_coins]. *)
Module TrendingCoin.
Record t : Type := mk {
  id : Z;
  coin_id : string;
  rank : Z;
  score : option Float;
  market_cap : option Float;
  thumb : option string;
  last_updated : option DateTime
}.
End TrendingCoin.

(** [class User(Base)], table [users]; [telegram_id] is unique. *)
Module User.
Record t : Type := mk {
  id : Z;
  telegram_id : string;
  username : option string;
  user_type : UserType;
  created_at : option DateTime;
  last_active : option DateTime;
  language : option string;
  preferred_chart_type : option string;
  preferred_timeframe : option Z
}.

(** The [default=] of each column that declares one. *)
Definition user_type_default : UserType := GUEST.
Definition language_default : string := "en".
Definition preferred_chart_type_default : string := "price".
Definition preferred_timeframe_default : Z := 30.
End User.

(** [class UserActivity(Base)], table [user_activities]. *)
Module UserActivity.
Record t : Type := mk {
  id : Z;
  user_id : string;
  coin_id : string;
  activity_type : string;
  timestamp : Z;
  details : option JSON
}.
End UserActivity.

(** [class Admin(Base)], table [admins]; [user_id] is unique. *)
Module Admin.
Record t : Type := mk {
  id : Z;
  user_id : string;
  role : AdminTypes;
  created_at : option DateTime;
  created_by : option string;
  is_active : option bool
}.

Definition role_default : AdminTypes := NORMAL.
Definition is_active_default : bool := true.
End Admin.

(** [class AdminActivity(Base)], table [admin_activities]. *)
Module AdminActivity.
Record t : Type := mk {
  id : Z;
  admin_id : string;
  activity_type : string;
  target_user_id : option string;
  timestamp : option DateTime;
  details : option JSON
}.
End AdminActivity.

(** The content of the database: one list of rows per table, in
    insertion order. *)
Record Db : Type := mkDb {
  coins : list Coin.t;
  coin_prices : list CoinPrice.t;
  ohlc : list OHLC.t;
  trending_coins : list TrendingCoin.t;
  users : list User.t;
  user_activities : list UserActivity.t;
  admins : list Admin.t;
  admin_activities : list AdminActivity.t
}.

(** What [Base.metadata.create_all] leaves on a fresh store. *)
Definition empty_db : Db := mkDb [] [] [] [] [] [] [] [].

(** The store with one table replaced. *)
Definition with_coins (cs : list Coin.t) (d : Db) : Db :=
  mkDb cs (coin_prices d) (ohlc d) (trending_coins d) (users d)
       (user_activities d) (admins d) (admin_activities d).

Definition with_coin_prices (ps : list CoinPrice.t) (d : Db) : Db :=
  mkDb (coins d) ps (ohlc d) (trending_coins d) (users d)
       (user_activities d) (admins d) (admin_activities d).

Definition with_ohlc (os : list OHLC.t) (d : Db) : Db :=
  mkDb (coins d) (coin_prices d) os (trending_coins d) (users d)
       (user_activities d) (admins d) (admin_activities d).

Definition with_trending_coins (ts : list TrendingCoin.t) (d : Db) : Db :=
  mkDb (coins d) (coin_prices d) (ohlc d) ts (users d)
       (user_activities d) (admins d) (admin_activities d).

Definition with_users (us : list User.t) (d : Db) : Db :=
  mkDb (coins d) (coin_prices d) (ohlc d) (trending_coins d) us
       (user_activities d) (admins d) (admin_activities d).

Definition with_user_activities (xs : list UserActivity.t) (d : Db) : Db :=
  mkDb (coins d) (coin_prices d) (ohlc d) (trending_coins d) (users d)
       xs (admins d) (admin_activities d).

Definition with_admins (ads : list Admin.t) (d : Db) : Db :=
  mkDb (coins d) (coin_prices d) (ohlc d) (trending_coins d) (users d)
       (user_activities d) ads (admin_activities d).

Definition with_admin_activities (xs : list AdminActivity.t) (d : Db) : Db :=
  mkDb (coins d) (coin_prices d) (ohlc d) (trending_coins d) (users d)
       (user_activities d) (admins d) xs.

(** *** Declared unique constraints *)

(** [UniqueConstraint('coin_id', 'currency', name='unique_coin_currency')] *)
Definition same_coin_currency (c cur : string) (p : CoinPrice.t) : bool :=
  (CoinPrice.coin_id p =? c) && (CoinPrice.currency p =? cur).

Definition unique_coin_currency (d : Db) : Prop :=
  forall c cur,
  (length (filter (same_coin_currency c cur) (coin_prices d)) <= 1)%nat.

(** [telegram_id = Column(String, unique=True, ...)] *)
Definition has_telegram_id (i : string) (u : User.t) : bool :=
  User.telegram_id u =? i.

Definition unique_telegram_id (d : Db) : Prop :=
  forall i, (length (filter (has_telegram_id i) (users d)) <= 1)%nat.

(** [user_id = Column(String, ForeignKey(...), unique=True, ...)] *)
Definition has_user_id (i : string) (a : Admin.t) : bool :=
  Admin.user_id a =? i.

Definition unique_admin_user_id (d : Db) : Prop :=
  forall i, (length (filter (has_user_id i) (admins d)) <= 1)%nat.

End Schema.


(* ------------------------------------------------------------------ *)
(** ** The declared relationships and what a delete does with them *)

Module Orm.
Import Schema.

(** A loaded object of one of the mapped classes. *)
Inductive Obj : Type :=
| a_Coin (c : Coin.t)
| a_CoinPrice (p : CoinPrice.t)
| a_OHLC (o : OHLC.t)
| a_TrendingCoin (t : TrendingCoin.t)
| a_User (u : User.t)
| a_UserActivity (x : UserActivity.t)
| an_Admin (a : Admin.t)
| an_AdminActivity (x : AdminActivity.t).

(** The options a [cascade=] string is made of. *)
Inductive CascadeOption : Type :=
| save_update | merge | refresh_expire | expunge | delete | delete_orphan.

(** A [relationship(...)] without [cascade=]. *)
Definition cascade_default : list CascadeOption := [save_update; merge].

(** [cascade="all, delete-orphan"]; [all] stands for every option but
    [delete-orphan]. *)
Definition cascade_all_delete_orphan : list CascadeOption :=
  [save_update; merge; refresh_expire; expunge; delete; delete_orphan].

(** Every [relationship(...)] attribute of database.py, named
    class_attribute. *)
Inductive Relationship : Type :=
| Coin_prices | Coin_ohlc_data | Coin_trending_data
| CoinPrice_coin | OHLC_coin | TrendingCoin_coin
| User_activities | UserActivity_user
| Admin_user | Admin_activities
| AdminActivity_admin | AdminActivity_target_user.

Definition relationships : list Relationship :=
  [Coin_prices; Coin_ohlc_data; Coin_trending_data;
   CoinPrice_coin; OHLC_coin; TrendingCoin_coin;
   User_activities; UserActivity_user;
   Admin_user; Admin_activities;
   AdminActivity_admin; AdminActivity_target_user].

Definition cascade (r : Relationship) : list CascadeOption :=
  match r with
  | Coin_prices | Coin_ohlc_data | Coin_trending_data
  | User_activities | Admin_activities => cascade_all_delete_orphan
  | _ => cascade_default
  end.

Definition is_delete (c : CascadeOption) : bool :=
  match c with delete => true | _ => false end.

Definition cascades_delete (r : Relationship) : bool :=
  existsb is_delete (cascade r).

(** The objects a relationship attribute of [o] holds: the rows of the
    other table joined on the foreign key between the two tables. *)
Definition related (r : Relationship) (o : Obj) (d : Db) : list Obj :=
  match r, o with
  | Coin_prices, a_Coin c =>
      map a_CoinPrice
          (filter (fun p => CoinPrice.coin_id p =? Coin.id c) (coin_prices d))
  | Coin_ohlc_data, a_Coin c =>
      map a_OHLC (filter (fun o => OHLC.coin_id o =? Coin.id c) (ohlc d))
  | Coin_trending_data, a_Coin c =>
      map a_TrendingCoin
          (filter (fun t => TrendingCoin.coin_id t =? Coin.id c)
                  (trending_coins d))
  | CoinPrice_coin, a_CoinPrice p =>
      map a_Coin (filter (fun c => Coin.id c =? CoinPrice.coin_id p) (coins d))
  | OHLC_coin, a_OHLC o =>
      map a_Coin (filter (fun c => Coin.id c =? OHLC.coin_id o) (coins d))
  | TrendingCoin_coin, a_TrendingCoin t =>
      map a_Coin
          (filter (fun c => Coin.id c =? TrendingCoin.coin_id t) (coins d))
  | User_activities, a_User u =>
      map a_UserActivity
          (filter (fun x => UserActivity.user_id x =? User.telegram_id u)
                  (user_activities d))
  | UserActivity_user, a_UserActivity x =>
      map a_User
          (filter (fun u => User.telegram_id u =? UserActivity.user_id x)
                  (users d))
  | Admin_user, an_Admin a =>
      map a_User
          (filter (fun u => User.telegram_id u =? Admin.user_id a) (users d))
  | Admin_activities, an_Admin a =>
      map an_AdminActivity
          (filter (fun x => AdminActivity.admin_id x =? Admin.user_id a)
                  (admin_activities d))
  | AdminActivity_admin, an_AdminActivity x =>
      map an_Admin
          (filter (fun a => Admin.user_id a =? AdminActivity.admin_id x)
                  (admins d))
  | AdminActivity_target_user, an_AdminActivity x =>
      match AdminActivity.target_user_id x with
      | Some i =>
          map a_User (filter (fun u => User.telegram_id u =? i) (users d))
      | None => []
      end
  | _, _ => []
  end.

(** [DELETE FROM <table> WHERE <primary key> = <that of o>] *)
Definition delete_row (o : Obj) (d : Db) : Db :=
  match o with
  | a_Coin c =>
      with_coins (filter (fun c' => negb (Coin.id c' =? Coin.id c)) (coins d)) d
  | a_CoinPrice p =>
      with_coin_prices
        (filter (fun p' => negb (CoinPrice.id p' =? CoinPrice.id p)%Z)
                (coin_prices d)) d
  | a_OHLC o =>
      with_ohlc (filter (fun o' => negb (OHLC.id o' =? OHLC.id o)%Z) (ohlc d)) d
  | a_TrendingCoin t =>
      with_trending_coins
        (filter (fun t' => negb (TrendingCoin.id t' =? TrendingCoin.id t)%Z)
                (trending_coins d)) d
  | a_User u =>
      with_users (filter (fun u' => negb (User.id u' =? User.id u)%Z) (users d)) d
  | a_UserActivity x =>
      with_user_activities
        (filter (fun x' => negb (UserActivity.id x' =? UserActivity.id x)%Z)
                (user_activities d)) d
  | an_Admin a =>
      with_admins
        (filter (fun a' => negb (Admin.id a' =? Admin.id a)%Z) (admins d)) d
  | an_AdminActivity x =>
      with_admin_activities
        (filter (fun x' => negb (AdminActivity.id x' =? AdminActivity.id x)%Z)
                (admin_activities d)) d
  end.

(** The objects a delete of [o] reaches through the relationships whose
    cascade includes [delete]. *)
Definition cascaded (o : Obj) (d : Db) : list Obj :=
  flat_map (fun r => related r o d) (filter cascades_delete relationships).

(** [session.delete(o)] followed by the flush: the row of [o] goes, and so
    does the row of every object the delete cascades to.  The objects
    reached cascade no further (lemma [cascade_one_level]).  What the
    database does on its own for a foreign key declared with
    [ondelete='CASCADE'] is not part of this: it can only remove more
    rows. *)
Definition session_delete (o : Obj) (d : Db) : Db :=
  fold_left (fun acc c => delete_row c acc) (cascaded o d) (delete_row o d).

End Orm.

(* ------------------------------------------------------------------ *)
(** ** The persistence operations used by main.py *)

Module DatabaseManager.
Import Schema.

(** The error kinds of the persistence layer, and the one Python error
    the handlers can run into on their own. *)
Inductive Exn : Type :=
| DuplicateKey (table key : string)
| ForeignKeyViolation (table key : string)
| NotFound (table key : string)
| TypeError (msg : string).

(** An [Integer] primary key left out of an insert takes the largest key
    of the table plus one. *)
Definition next_id (ids : list Z) : Z :=
  (fold_right Z.max 0 ids + 1)%Z.

(** The dict handed to [create_user]: the key [telegram_id], and any of
    the other columns. *)
Record user_fields : Type := mk_user_fields {
  uf_telegram_id : string;
  uf_username : option string;
  uf_user_type : option UserType;
  uf_language : option string;
  uf_preferred_chart_type : option string;
  uf_preferred_timeframe : option Z
}.

(** [{'telegram_id': i}] *)
Definition only_telegram_id (i : string) : user_fields :=
  mk_user_fields i None None None None None.

(** The dict handed to [create_admin]. *)
Record admin_fields : Type := mk_admin_fields {
  af_user_id : string;
  af_role : option AdminTypes;
  af_created_by : option string;
  af_is_active : option bool
}.

Definition or_default {A : Type} (o : option A) (dflt : A) : A :=
  match o with Some a => a | None => dflt end.

(** Modelled from the spec: [DatabaseManager.get_user_by_telegram_id]
    (src/services/database_manager.py, not among the sources).  Exact-match
    lookup on the identity, no side effect; none when there is no row. *)
Definition get_user_by_telegram_id (i : string) (d : Db) : option User.t :=
  find (has_telegram_id i) (users d).

(** The row an insert into [users] stores: the supplied fields, and the
    column defaults of database.py for the others. *)
Definition new_user (now : DateTime) (f : user_fields) (d : Db) : User.t :=
  User.mk (next_id (map User.id (users d)))
          (uf_telegram_id f)
          (uf_username f)
          (or_default (uf_user_type f) User.user_type_default)
          (Some now)
          (Some now)
          (Some (or_default (uf_language f) User.language_default))
          (Some (or_default (uf_preferred_chart_type f)
                            User.preferred_chart_type_default))
          (Some (or_default (uf_preferred_timeframe f)
                            User.preferred_timeframe_default)).

(** Modelled from the spec: [DatabaseManager.create_user]
    (src/services/database_manager.py, not among the sources).  Inserts
    with the defaults; fails with DuplicateKey if the identity already
    has a row. *)
Definition create_user (now : DateTime) (f : user_fields) (d : Db)
  : Exn + (User.t * Db) :=
  match get_user_by_telegram_id (uf_telegram_id f) d with
  | Some _ => inl (DuplicateKey "users" (uf_telegram_id f))
  | None =>
      let u := new_user now f d in
      inr (u, with_users (users d ++ [u]) d)
  end.

(** Modelled from the spec: [DatabaseManager.get_admin_by_user_id]
    (src/services/database_manager.py, not among the sources). *)
Definition get_admin_by_user_id (i : string) (d : Db) : option Admin.t :=
  find (has_user_id i) (admins d).

(** The row an insert into [admins] stores. *)
Definition new_admin (now : DateTime) (f : admin_fields) (d : Db) : Admin.t :=
  Admin.mk (next_id (map Admin.id (admins d)))
           (af_user_id f)
           (or_default (af_role f) Admin.role_default)
           (Some now)
           (af_created_by f)
           (Some (or_default (af_is_active f) Admin.is_active_default)).

(** Modelled from the spec: [DatabaseManager.create_admin]
    (src/services/database_manager.py, not among the sources).  Fails with
    ForeignKeyViolation if [user_id] has no User row, with DuplicateKey if
    an Admin row already exists for it. *)
Definition create_admin (now : DateTime) (f : admin_fields) (d : Db)
  : Exn + (Admin.t * Db) :=
  match get_user_by_telegram_id (af_user_id f) d with
  | None => inl (ForeignKeyViolation "admins" (af_user_id f))
  | Some _ =>
      match get_admin_by_user_id (af_user_id f) d with
      | Some _ => inl (DuplicateKey "admins" (af_user_id f))
      | None =>
          let a := new_admin now f d in
          inr (a, with_admins (admins d ++ [a]) d)
      end
  end.

(** The values of a [coin_prices] row other than its keys. *)
Record price_fields : Type := mk_price_fields {
  pf_price : option Float;
  pf_market_cap : option Float;
  pf_volume_24h : option Float;
  pf_price_change_24h : option Float
}.

Definition update_price (now : DateTime) (v : price_fields)
  (p : CoinPrice.t) : CoinPrice.t :=
  CoinPrice.mk (CoinPrice.id p) (CoinPrice.coin_id p) (CoinPrice.currency p)
               (pf_price v) (pf_market_cap v) (pf_volume_24h v)
               (pf_price_change_24h v) (Some now).

Definition new_price (now : DateTime) (c cur : string) (v : price_fields)
  (d : Db) : CoinPrice.t :=
  CoinPrice.mk (next_id (map CoinPrice.id (coin_prices d))) c cur
               (pf_price v) (pf_market_cap v) (pf_volume_24h v)
               (pf_price_change_24h v) (Some now).

(** Modelled from the spec: the CoinPrice write of [DatabaseManager]
    (src/services/database_manager.py, not among the sources).  Insert-or-
    update on the declared unique constraint [unique_coin_currency]: a row
    with the same (coin_id, currency) is updated in place, otherwise a new
    row is inserted; no duplicate error is raised. *)
Definition upsert_coin_price (now : DateTime) (c cur : string)
  (v : price_fields) (d : Db) : Exn + Db :=
  if existsb (same_coin_currency c cur) (coin_prices d)
  then inr (with_coin_prices
              (map (fun p => if same_coin_currency c cur p
                             then update_price now v p else p)
                   (coin_prices d)) d)
  else inr (with_coin_prices (coin_prices d ++ [new_price now c cur v d]) d).

End DatabaseManager.

(* ------------------------------------------------------------------ *)
(** ** Handler code: state and exceptions *)

Module Py.
Import Schema DatabaseManager.

(** [keyboards.get_main_menu()] and [keyboards.get_admin_menu()]. *)
Inductive Keyboard : Type := main_menu | admin_menu.

(** The text of a reply: [formatter._t(key)] under the formatter's current
    language, or a literal. *)
Inductive Text : Type :=
| t_ (key : string) (language : option string)
| literal (s : string).

(** One [update.message.reply_text(text, reply_markup=...)]. *)
Record Reply : Type := mkReply {
  text : Text;
  reply_markup : option Keyboard
}.

(** Everything a handler reads or changes: the store behind the global
    [db], the language of the global [formatter], the replies sent on the
    update's message, what was printed, and the clock. *)
Record World : Type := mkWorld {
  db : Db;
  formatter_language : option string;
  sent : list Reply;
  stdout : list string;
  utcnow : DateTime
}.

Inductive Result (A : Type) : Type :=
| Returns (a : A)
| Raises (e : Exn).
Arguments Raises {A} e.

(** A computation runs in a world and either returns or raises; what it
    changed before raising stays changed. *)
Definition M (A : Type) : Type := World -> Result A * World.

Definition ret {A : Type} (a : A) : M A := fun w => (Returns a, w).

Definition raise {A : Type} (e : Exn) : M A := fun w => (Raises e, w).

Definition bind {A B : Type} (m : M A) (k : A -> M B) : M B :=
  fun w =>
    match m w with
    | (Returns a, w') => k a w'
    | (Raises e, w') => (Raises e, w')
    end.

(** [try: body / except Exception as e: handler(e)] *)
Definition try_except {A : Type} (body : M A) (handler : Exn -> M A) : M A :=
  fun w =>
    match body w with
    | (Returns a, w') => (Returns a, w')
    | (Raises e, w') => handler e w'
    end.

Definition with_db (d : Db) (w : World) : World :=
  mkWorld d (formatter_language w) (sent w) (stdout w) (utcnow w).

(** A read of the store. *)
Definition query {A : Type} (q : Db -> A) : M A :=
  fun w => (Returns (q (db w)), w).

(** A write to the store; an error of the persistence layer is raised. *)
Definition execute {A : Type} (op : DateTime -> Db -> Exn + (A * Db)) : M A :=
  fun w =>
    match op (utcnow w) (db w) with
    | inl e => (Raises e, w)
    | inr (a, d') => (Returns a, with_db d' w)
    end.

(** [formatter.set_language(lang)] *)
Definition set_language (lang : option string) : M unit :=
  fun w => (Returns tt,
            mkWorld (db w) lang (sent w) (stdout w) (utcnow w)).

(** [formatter._t(key)] *)
Definition _t (key : string) : M Text :=
  fun w => (Returns (t_ key (formatter_language w)), w).

(** [await update.message.reply_text(text, reply_markup=markup)] *)
Definition reply_text (txt : Text) (markup : option Keyboard) : M unit :=
  fun w => (Returns tt,
            mkWorld (db w) (formatter_language w)
                    (sent w ++ [mkReply txt markup]) (stdout w) (utcnow w)).

(** [print(s)] *)
Definition print (s : string) : M unit :=
  fun w => (Returns tt,
            mkWorld (db w) (formatter_language w) (sent w)
                    (stdout w ++ [s]) (utcnow w)).

(** [row[column]]: subscripting [None] is a TypeError. *)
Definition subscript {R A : Type} (row : option R) (column : R -> A) : M A :=
  match row with
  | Some r => ret (column r)
  | None => raise (TypeError "'NoneType' object is not subscriptable")
  end.

(** [str(e)] *)
Definition str_exn (e : Exn) : string :=
  match e with
  | DuplicateKey t k => "duplicate key in " ++ t ++ ": " ++ k
  | ForeignKeyViolation t k => "foreign key violation in " ++ t ++ ": " ++ k
  | NotFound t k => "not found in " ++ t ++ ": " ++ k
  | TypeError msg => msg
  end.

(** [str(x)] of a value that may be [None]. *)
Definition str (o : option string) : string :=
  match o with Some s => s | None => "None" end.

(** Truth value of a row-or-[None]. *)
Definition truthy {R : Type} (row : option R) : bool :=
  match row with Some _ => true | None => false end.

End Py.

Declare Scope py_scope.
Delimit Scope py_scope with py.
Notation "x <- c ;; k" := (Py.bind c (fun x => k))
  (at level 61, c at next level, right associativity) : py_scope.
Notation "c ;;; k" := (Py.bind c (fun _ => k))
  (at level 61, right associativity) : py_scope.

(* ------------------------------------------------------------------ *)
(** ** main.py *)

Module Main.
Import Schema DatabaseManager Py.
Local Open Scope py_scope.

(** The part of a Telegram update the handlers read:
    [update.message.from_user.username], which Telegram may leave unset. *)
Record Update : Type := mkUpdate {
  from_user_username : option string
}.

(** [def create_first_admins(admins)] *)
Fixpoint create_first_admins (admins : list string) : M unit :=
  match admins with
  | [] => ret tt
  | admin_name :: rest =>
      new_admin <- query (get_admin_by_user_id admin_name) ;;
      (if negb (truthy new_admin) then
         user <- query (get_user_by_telegram_id admin_name) ;;
         (if negb (truthy user) then
            execute (fun now => create_user now (only_telegram_id admin_name))
            ;;; ret tt
          else ret tt) ;;;
         execute (fun now =>
                    create_admin now
                      (mk_admin_fields admin_name (Some MASTER)
                                       (Some "abualmun") None)) ;;;
         ret tt
       else ret tt) ;;;
      create_first_admins rest
  end.

(** The list [admin_command] hands to [create_first_admins]. *)
Definition first_admins : list string :=
  ["abualmun"; "osmanoor2018"; "hooibi"].

(** [async def start_command(update, context)] *)
Definition start_command (update : Update) : M unit :=
  let name := str (from_user_username update) in
  user <- query (get_user_by_telegram_id name) ;;
  user <- (if negb (truthy user) then
             execute (fun now => create_user now (only_telegram_id name)) ;;;
             query (get_user_by_telegram_id name)
           else ret user) ;;
  lang <- subscript user User.language ;;
  set_language lang ;;;
  tid <- subscript user User.telegram_id ;;
  print tid ;;;
  user_type <- subscript user User.user_type ;;
  if UserType_eqb user_type BANNED then
    txt <- _t "error_no_permission" ;;
    reply_text txt None
  else
    lang <- subscript user User.language ;;
    set_language lang ;;;
    txt <- _t "welcome_text" ;;
    reply_text txt (Some main_menu).

(** [admin and admin['is_active']] (main.py, in [admin_command]). *)
Definition active_admin (admin : option Admin.t) : bool :=
  match admin with
  | Some a => or_default (Admin.is_active a) false
  | None => false
  end.

(** The authorization check of the admin command, as a function of the
    identity and the store. *)
Definition is_authorized (identity : string) (d : Db) : bool :=
  active_admin (get_admin_by_user_id identity d).

Definition admin_welcome_text : string :=
  "Welcome to CryptoAnalyst Bot Admin Panel

How can I help you? Select an option below
".

(** The body of the [try:] of [admin_command]; [user] is the local
    variable as the statements before the [try:] leave it. *)
Definition admin_command_try (user : option User.t) : M unit :=
  tid <- subscript user User.telegram_id ;;
  admin <- query (get_admin_by_user_id tid) ;;
  lang <- subscript user User.language ;;
  set_language lang ;;;
  if active_admin admin then
    reply_text (literal admin_welcome_text) (Some admin_menu)
  else
    txt <- _t "not_authorized" ;;
    reply_text txt None.

(** [async def admin_command(update, context)]; the [except Exception as
    e:] prints [e] and passes. *)
Definition admin_command (update : Update) : M unit :=
  create_first_admins first_admins ;;;
  let name := str (from_user_username update) in
  user <- query (get_user_by_telegram_id name) ;;
  (if negb (truthy user) then
     execute (fun now => create_user now (only_telegram_id name)) ;;; ret tt
   else ret tt) ;;;
  try_except (admin_command_try user) (fun e => print (str_exn e)).

(** A world with nothing stored, sent or printed yet. *)
Definition fresh (now : DateTime) : World :=
  mkWorld empty_db None [] [] now.

End Main.


(* ------------------------------------------------------------------ *)
(** ** main.py: the progress bar *)

Module Progress.

(** [int(20 * progress / 100)], 20 being the length of the bar.  The
    exact quotient of the two integers is an integer or at least 1/5
    away from one, so the float that [/] returns truncates to the same
    integer as the exact quotient. *)
Definition filled_length (progress : Z) : Z := Z.quot (20 * progress) 100.

(** [glyph * n] for a string of one glyph: [n] copies, none when [n] is
    not positive.  The bar is kept as the list of its glyphs, since the
    full block is one character but several bytes. *)
Definition times (glyph : string) (n : Z) : list string :=
  repeat glyph (Z.to_nat n).

(** The full block and the blank the bar is made of. *)
Definition block : string := "█".
Definition blank : string := " ".

(** [bar = block * filled_length + blank * (20 - filled_length)] *)
Definition bar (progress : Z) : list string :=
  times block (filled_length progress)
  ++ times blank (20 - filled_length progress).

(** [f"Loading: [{bar}] {progress}%"] *)
Definition loading (progress : Z) : string :=
  "Loading: [" ++ String.concat "" (bar progress) ++ "] "
  ++ NilZero.string_of_int (Z.to_int progress) ++ "%".

(** The text of the first [reply_text], and of the last [edit_text]. *)
Definition first_text : string := "Loading: [                    ] 0%".
Definition last_text : string := "✅ Loading Complete!".

(** What [edit_text] raises when the new text is the text the message
    already has: Telegram refuses the edit ("message is not modified") and
    the library raises [BadRequest]. *)
Inductive Error : Type := BadRequest_message_is_not_modified.

(** [await message.edit_text(text)] on a message whose text is
    [current]: the new text of the message, or the error. *)
Definition edit_text (current text : string) : Error + string :=
  if current =? text then inl BadRequest_message_is_not_modified
  else inr text.

(** [while progress <= 100:] edit the message, add 5.  [current] is the
    text of the message and [shown] every text it has had, oldest first.
    The loop ends with the message's text, or with the error an edit
    raised; it is cut off when the fuel runs out. *)
Fixpoint while_progress (fuel : nat) (progress : Z) (current : string)
  (shown : list string) : option ((Error + string) * list string) :=
  if (progress <=? 100)%Z then
    match fuel with
    | O => None
    | S fuel' =>
        match edit_text current (loading progress) with
        | inl e => Some (inl e, shown)
        | inr text =>
            while_progress fuel' (progress + 5) text (shown ++ [text])
        end
    end
  else Some (inr current, shown).

(** How the handler ends. *)
Inductive Outcome : Type :=
| Completed
| Raised (e : Error).

(** [async def progress_bar(update, context)]: how it ends, and the
    texts the message has gone through. *)
Definition progress_bar (fuel : nat) : option (Outcome * list string) :=
  match while_progress fuel 0 first_text [first_text] with
  | None => None
  | Some (inl e, shown) => Some (Raised e, shown)
  | Some (inr current, shown) =>
      match edit_text current last_text with
      | inl e => Some (Raised e, shown)
      | inr text => Some (Completed, shown ++ [text])
      end
  end.

End Progress.

Import Schema Orm DatabaseManager Py Main.
Local Open Scope py_scope.

(* ------------------------------------------------------------------ *)
(** ** Vocabulary of the statements *)

(** The number of rows a table holds for an identity. *)
Definition user_rows (i : string) (d : Db) : nat :=
  length (filter (has_telegram_id i) (users d)).

Definition admin_rows (i : string) (d : Db) : nat :=
  length (filter (has_user_id i) (admins d)).

(** The rows [start_command] and [create_first_admins] insert. *)
Definition is_default_user (i : string) (u : User.t) : Prop :=
  User.telegram_id u = i /\
  User.user_type u = GUEST /\
  User.language u = Some "en" /\
  User.preferred_timeframe u = Some 30%Z.

Definition is_master_admin (i : string) (a : Admin.t) : Prop :=
  Admin.user_id a = i /\
  Admin.role a = MASTER /\
  Admin.is_active a = Some true.

(** What one turn of the loop of [create_first_admins] does to the store,
    and what the whole loop does; [create_first_admins_run] relates them
    to the code. *)
Definition ensure_user (now : DateTime) (i : string) (d : Db) : Db :=
  match get_user_by_telegram_id i d with
  | Some _ => d
  | None => with_users (users d ++ [new_user now (only_telegram_id i) d]) d
  end.

Definition bootstrap_fields (i : string) : admin_fields :=
  mk_admin_fields i (Some MASTER) (Some "abualmun") None.

Definition bootstrap_one (now : DateTime) (i : string) (d : Db) : Db :=
  match get_admin_by_user_id i d with
  | Some _ => d
  | None =>
      let d1 := ensure_user now i d in
      with_admins (admins d1 ++ [new_admin now (bootstrap_fields i) d1]) d1
  end.

Definition bootstrap (now : DateTime) (l : list string) (d : Db) : Db :=
  fold_left (fun acc i => bootstrap_one now i acc) l d.

(** "A banned user's command is answered with the no-permission message
    only, and writes nothing to the store", for a handler. *)
Definition blocks_banned (handler : Update -> M unit) : Prop :=
  forall (update : Update) (w : World) (u : User.t),
    get_user_by_telegram_id (str (from_user_username update)) (db w) = Some u ->
    User.user_type u = BANNED ->
    exists lang,
      sent (snd (handler update w))
      = sent w ++ [mkReply (t_ "error_no_permission" lang) None] /\
      db (snd (handler update w)) = db w.


(** Worlds used as concrete inputs. *)
Definition from_user (name : string) : Update := mkUpdate (Some name).

Definition evil : User.t :=
  User.mk 1 "evil" None BANNED (Some 0%Z) (Some 0%Z) (Some "en")
          (Some "price") (Some 30%Z).

Definition evil_world : World :=
  mkWorld (with_users [evil] empty_db) None [] [] 5%Z.

(** An identity with at most the one default row. *)
Definition fresh_or_default (j : string) (d : Db) : Prop :=
  user_rows j d = 0 \/
  (user_rows j d = 1 /\
   exists u, get_user_by_telegram_id j d = Some u /\ is_default_user j u).

(** The number of price rows of a (coin_id, currency) pair. *)
Definition price_rows (c cur : string) (d : Db) : nat :=
  length (filter (same_coin_currency c cur) (coin_prices d)).

(** What the update branch of the upsert does to each row. *)
Definition upsert_row (now : DateTime) (c cur : string) (v : price_fields)
  (p : CoinPrice.t) : CoinPrice.t :=
  if same_coin_currency c cur p then update_price now v p else p.

(** The classes at the owned end of the cascading relationships. *)
Definition is_child (o : Obj) : Prop :=
  match o with
  | a_Coin _ | a_User _ | an_Admin _ => False
  | _ => True
  end.






(** A small store with one row in most tables. *)
Definition btc : Coin.t :=
  Coin.mk "bitcoin" "btc" "Bitcoin" None None None.

Definition btc_usd : CoinPrice.t :=
  CoinPrice.mk 1 "bitcoin" "usd" (Some (1 # 1)%Q) None None None None.

Definition alice : User.t :=
  User.mk 1 "alice" None GUEST (Some 0%Z) (Some 0%Z) (Some "en")
          (Some "price") (Some 30%Z).

Definition alice_search : UserActivity.t :=
  UserActivity.mk 1 "alice" "bitcoin" "search" 0 None.

Definition alice_admin : Admin.t :=
  Admin.mk 1 "alice" MASTER (Some 0%Z) (Some "abualmun") (Some true).

Definition alice_admin_add : AdminActivity.t :=
  AdminActivity.mk 1 "alice" "admin_add" None (Some 0%Z) None.

Definition sample_db : Db :=
  mkDb [btc] [btc_usd] [] [] [alice] [alice_search] [alice_admin]
       [alice_admin_add].

(** The other two unique constraints database.py declares:
    [UniqueConstraint('coin_id', 'timestamp', name='unique_coin_timestamp')]
    on [ohlc] and [UniqueConstraint('coin_id', name='unique_trending_coin')]
    on [trending_coins]. *)
Definition same_coin_timestamp (c : string) (t : DateTime) (x : OHLC.t) : bool :=
  (OHLC.coin_id x =? c) && (OHLC.timestamp x =? t)%Z.

Definition unique_coin_timestamp (d : Db) : Prop :=
  forall c t, length (filter (same_coin_timestamp c t) (ohlc d)) <= 1.

Definition is_trending (c : string) (x : TrendingCoin.t) : bool :=
  TrendingCoin.coin_id x =? c.

Definition unique_trending_coin (d : Db) : Prop :=
  forall c, length (filter (is_trending c) (trending_coins d)) <= 1.

(** Every unique constraint of the schema at once. *)
Definition unique_constraints (d : Db) : Prop :=
  unique_coin_currency d /\ unique_coin_timestamp d /\
  unique_trending_coin d /\ unique_telegram_id d /\ unique_admin_user_id d.

(** [ForeignKey('users.telegram_id')] of [admins.user_id]: every admin row
    belongs to a user row. *)
Definition admins_have_users (d : Db) : Prop :=
  forall a, In a (admins d) ->
    exists u, get_user_by_telegram_id (Admin.user_id a) d = Some u.

(** [ForeignKey('admins.user_id')] of [admins.created_by]: the creator an
    admin row names has an admin row. *)
Definition admins_have_creators (d : Db) : Prop :=
  forall a c, In a (admins d) -> Admin.created_by a = Some c ->
    exists b, get_admin_by_user_id c d = Some b.

(** The second store has every row of the first, in place and unchanged,
    possibly followed by new rows of [users] and [admins]. *)
Definition grows (d d' : Db) : Prop :=
  coins d' = coins d /\ coin_prices d' = coin_prices d /\
  ohlc d' = ohlc d /\ trending_coins d' = trending_coins d /\
  user_activities d' = user_activities d /\
  admin_activities d' = admin_activities d /\
  (exists us, users d' = users d ++ us) /\
  (exists ads, admins d' = admins d ++ ads).

(** The world in which an earlier handler left the formatter in another
    language. *)
Definition with_formatter_language (lang : option string) (w : World) : World :=
  mkWorld (db w) lang (sent w) (stdout w) (utcnow w).

(** The two replies of the admin command. *)
Definition admin_menu_reply : Reply :=
  mkReply (literal admin_welcome_text) (Some admin_menu).

Definition not_authorized_reply (lang : option string) : Reply :=
  mkReply (t_ "not_authorized" lang) None.

(** A store in which the listed identity "hooibi" has been deactivated. *)
Definition hooibi : User.t :=
  User.mk 1 "hooibi" None GUEST (Some 0%Z) (Some 0%Z) (Some "ar")
          (Some "price") (Some 30%Z).

Definition hooibi_admin : Admin.t :=
  Admin.mk 1 "hooibi" MASTER (Some 0%Z) (Some "abualmun") (Some false).

Definition hooibi_world : World :=
  mkWorld (with_admins [hooibi_admin] (with_users [hooibi] empty_db))
          (Some "en") [] [] 9%Z.

(* ------------------------------------------------------------------ *)
(** ** Lookups and inserts *)

Lemma with_db_same (w : World) : with_db (db w) w = w.
Proof. destruct w; reflexivity. Qed.

Lemma ret_run {A : Type} (a : A) (w : World) : ret a w = (Returns a, w).
Proof. reflexivity. Qed.

Lemma find_app_l {A : Type} (f : A -> bool) (l l' : list A) (a : A) :
  find f l = Some a -> find f (l ++ l') = Some a.
Proof.
  induction l as [|x l IH]; simpl; [discriminate|].
  destruct (f x); auto.
Qed.

Lemma find_app_none {A : Type} (f : A -> bool) (l l' : list A) :
  find f l = None -> find f (l ++ l') = find f l'.
Proof.
  induction l as [|x l IH]; simpl; [reflexivity|].
  destruct (f x); [discriminate|auto].
Qed.

Lemma find_none_filter {A : Type} (f : A -> bool) (l : list A) :
  find f l = None <-> filter f l = [].
Proof.
  induction l as [|x l IH]; simpl; [tauto|].
  destruct (f x); [split; discriminate|exact IH].
Qed.

Lemma get_user_new (now : DateTime) (i : string) (d : Db) :
  get_user_by_telegram_id i d = None ->
  get_user_by_telegram_id i
    (with_users (users d ++ [new_user now (only_telegram_id i) d]) d)
  = Some (new_user now (only_telegram_id i) d).
Proof.
  unfold get_user_by_telegram_id; simpl; intros H.
  rewrite (find_app_none _ _ _ H); simpl.
  unfold has_telegram_id; simpl. now rewrite String.eqb_refl.
Qed.

Lemma get_user_ensure (now : DateTime) (i : string) (d : Db) :
  exists u, get_user_by_telegram_id i (ensure_user now i d) = Some u.
Proof.
  unfold ensure_user.
  destruct (get_user_by_telegram_id i d) as [u|] eqn:E.
  - exists u; exact E.
  - eexists; apply get_user_new; exact E.
Qed.

Lemma execute_create_user (i : string) (w : World) :
  get_user_by_telegram_id i (db w) = None ->
  execute (fun now => create_user now (only_telegram_id i)) w
  = (Returns (new_user (utcnow w) (only_telegram_id i) (db w)),
     with_db (ensure_user (utcnow w) i (db w)) w).
Proof.
  intros H. unfold execute, create_user, ensure_user; simpl.
  now rewrite H.
Qed.

Lemma execute_create_admin (f : admin_fields) (w : World) (u : User.t) :
  get_user_by_telegram_id (af_user_id f) (db w) = Some u ->
  get_admin_by_user_id (af_user_id f) (db w) = None ->
  execute (fun now => create_admin now f) w
  = (Returns (new_admin (utcnow w) f (db w)),
     with_db (with_admins (admins (db w) ++ [new_admin (utcnow w) f (db w)])
                          (db w)) w).
Proof.
  intros Hu Ha. unfold execute, create_admin. now rewrite Hu, Ha.
Qed.

Lemma get_admin_ensure (now : DateTime) (i j : string) (d : Db) :
  get_admin_by_user_id j (ensure_user now i d) = get_admin_by_user_id j d.
Proof.
  unfold ensure_user. now destruct (get_user_by_telegram_id i d).
Qed.

Lemma create_first_admins_cons (i : string) (l : list string) (w : World) :
  create_first_admins (i :: l) w
  = create_first_admins l (with_db (bootstrap_one (utcnow w) i (db w)) w).
Proof.
  simpl. unfold bind at 1. unfold bind at 1. unfold query at 1.
  unfold bootstrap_one.
  destruct (get_admin_by_user_id i (db w)) as [a|] eqn:Ea; simpl.
  - now rewrite with_db_same.
  - unfold bind at 1. unfold bind at 1. unfold bind at 1. unfold query at 1.
    destruct (get_user_ensure (utcnow w) i (db w)) as [u Hu].
    assert (Ha : get_admin_by_user_id i (ensure_user (utcnow w) i (db w)) = None)
      by now rewrite get_admin_ensure.
    pose (w1 := with_db (ensure_user (utcnow w) i (db w)) w).
    assert (Hstep :
      (execute (fun now => create_admin now (bootstrap_fields i)) ;;; ret tt) w1
      = (Returns tt,
         with_db (with_admins
                    (admins (ensure_user (utcnow w) i (db w)) ++
                     [new_admin (utcnow w) (bootstrap_fields i)
                        (ensure_user (utcnow w) i (db w))])
                    (ensure_user (utcnow w) i (db w))) w)).
    { unfold bind.
      rewrite (execute_create_admin (bootstrap_fields i) w1 (u := u)) by assumption.
      reflexivity. }
    destruct (get_user_by_telegram_id i (db w)) as [u0|] eqn:Eu; simpl.
    + assert (E : ensure_user (utcnow w) i (db w) = db w)
        by (unfold ensure_user; now rewrite Eu).
      unfold w1 in Hstep. rewrite E in Hstep. rewrite with_db_same in Hstep.
      fold (bootstrap_fields i). rewrite Hstep. now rewrite E.
    + rewrite execute_create_user by assumption. rewrite ret_run.
      fold (bootstrap_fields i). fold w1. now rewrite Hstep.
Qed.

(** The loop of [create_first_admins] never raises, and changes the store
    as [bootstrap] says and nothing else. *)
Lemma create_first_admins_run (l : list string) (w : World) :
  create_first_admins l w
  = (Returns tt, with_db (bootstrap (utcnow w) l (db w)) w).
Proof.
  revert w; induction l as [|i l IH]; intros w.
  - simpl. now rewrite with_db_same.
  - rewrite create_first_admins_cons, IH. reflexivity.
Qed.

(* ------------------------------------------------------------------ *)
(** ** The bootstrap of the first admins *)

Lemma bootstrap_cons (now : DateTime) (i : string) (l : list string) (d : Db) :
  bootstrap now (i :: l) d = bootstrap now l (bootstrap_one now i d).
Proof. reflexivity. Qed.

Lemma get_admin_none_rows (i : string) (d : Db) :
  get_admin_by_user_id i d = None <-> admin_rows i d = 0.
Proof.
  unfold get_admin_by_user_id, admin_rows.
  rewrite find_none_filter. symmetry. apply length_zero_iff_nil.
Qed.

Lemma get_user_none_rows (i : string) (d : Db) :
  get_user_by_telegram_id i d = None <-> user_rows i d = 0.
Proof.
  unfold get_user_by_telegram_id, user_rows.
  rewrite find_none_filter. symmetry. apply length_zero_iff_nil.
Qed.

(** One turn of the loop adds at most one admin row, for [i], and only
    when [i] has none. *)
Lemma admins_bootstrap_one (now : DateTime) (i : string) (d : Db) :
  (get_admin_by_user_id i d <> None /\ bootstrap_one now i d = d) \/
  (get_admin_by_user_id i d = None /\
   exists a, admins (bootstrap_one now i d) = admins d ++ [a] /\
             is_master_admin i a /\
             exists u, get_user_by_telegram_id i (bootstrap_one now i d) = Some u).
Proof.
  unfold bootstrap_one.
  destruct (get_admin_by_user_id i d) as [a|] eqn:Ea.
  - left; split; [discriminate|reflexivity].
  - right; split; [reflexivity|]. eexists; split; [|split].
    + simpl. unfold ensure_user.
      destruct (get_user_by_telegram_id i d); reflexivity.
    + repeat split.
    + simpl. destruct (get_user_ensure now i d) as [u Hu].
      exists u. exact Hu.
Qed.

Lemma admin_rows_bootstrap_one (now : DateTime) (i j : string) (d : Db) :
  admin_rows j (bootstrap_one now i d)
  = admin_rows j d
    + (if negb (truthy (get_admin_by_user_id i d)) && (i =? j) then 1 else 0).
Proof.
  destruct (admins_bootstrap_one now i d) as [[Hs E]|[Hn [a [E [[Hi _] _]]]]].
  - rewrite E. destruct (get_admin_by_user_id i d); [simpl; lia|congruence].
  - unfold admin_rows. rewrite E, Hn, filter_app, length_app. simpl.
    unfold has_user_id at 2. rewrite Hi.
    destruct (i =? j); reflexivity.
Qed.

Lemma unique_bootstrap_one (now : DateTime) (i : string) (d : Db) :
  unique_admin_user_id d -> unique_admin_user_id (bootstrap_one now i d).
Proof.
  intros U j. fold (admin_rows j (bootstrap_one now i d)).
  rewrite admin_rows_bootstrap_one.
  specialize (U j). fold (admin_rows j d) in U.
  destruct (get_admin_by_user_id i d) as [a|] eqn:Ea; simpl; [lia|].
  destruct (String.eqb_spec i j) as [->|]; [|lia].
  apply get_admin_none_rows in Ea. lia.
Qed.

Lemma unique_bootstrap (now : DateTime) (l : list string) (d : Db) :
  unique_admin_user_id d -> unique_admin_user_id (bootstrap now l d).
Proof.
  revert d; induction l as [|i l IH]; intros d U; [exact U|].
  rewrite bootstrap_cons. apply IH, unique_bootstrap_one, U.
Qed.

Lemma admin_rows_mono_one (now : DateTime) (i j : string) (d : Db) :
  admin_rows j d <= admin_rows j (bootstrap_one now i d).
Proof. rewrite admin_rows_bootstrap_one. lia. Qed.

Lemma admin_rows_mono (now : DateTime) (l : list string) (j : string) (d : Db) :
  admin_rows j d <= admin_rows j (bootstrap now l d).
Proof.
  revert d; induction l as [|i l IH]; intros d; [apply le_n|].
  rewrite bootstrap_cons.
  eapply Nat.le_trans; [apply admin_rows_mono_one|apply IH].
Qed.

(** After the loop every listed identity has an admin row. *)
Lemma bootstrap_covers (now : DateTime) (l : list string) (d : Db) (i : string) :
  In i l -> 1 <= admin_rows i (bootstrap now l d).
Proof.
  revert d; induction l as [|j l IH]; intros d [].
  - subst j. rewrite bootstrap_cons.
    eapply Nat.le_trans; [|apply admin_rows_mono].
    rewrite admin_rows_bootstrap_one, String.eqb_refl.
    destruct (get_admin_by_user_id i d) as [a|] eqn:Ea; simpl; [|lia].
    assert (admin_rows i d <> 0); [|lia].
    intros Z0. apply get_admin_none_rows in Z0. congruence.
  - rewrite bootstrap_cons. now apply IH.
Qed.

(** Where every listed identity has an admin row, the loop changes
    nothing. *)
Lemma bootstrap_noop (now : DateTime) (l : list string) (d : Db) :
  (forall i, In i l -> 1 <= admin_rows i d) -> bootstrap now l d = d.
Proof.
  induction l as [|i l IH]; intros H; [reflexivity|].
  rewrite bootstrap_cons.
  assert (E : bootstrap_one now i d = d).
  { unfold bootstrap_one.
    destruct (get_admin_by_user_id i d) as [a|] eqn:Ea; [reflexivity|].
    apply get_admin_none_rows in Ea.
    specialize (H i (or_introl eq_refl)). lia. }
  rewrite E. apply IH. intros j Hj. apply H. now right.
Qed.

Lemma users_ensure (now : DateTime) (i : string) (d : Db) :
  users (ensure_user now i d)
  = users d ++ (if truthy (get_user_by_telegram_id i d) then []
                else [new_user now (only_telegram_id i) d]).
Proof.
  unfold ensure_user.
  destruct (get_user_by_telegram_id i d); simpl; [now rewrite app_nil_r|reflexivity].
Qed.

Lemma users_bootstrap_one (now : DateTime) (i : string) (d : Db) :
  users (bootstrap_one now i d)
  = users d ++ (if truthy (get_admin_by_user_id i d)
                   || truthy (get_user_by_telegram_id i d) then []
                else [new_user now (only_telegram_id i) d]).
Proof.
  unfold bootstrap_one.
  destruct (get_admin_by_user_id i d); simpl; [now rewrite app_nil_r|].
  apply users_ensure.
Qed.

Lemma get_user_bootstrap_one (now : DateTime) (i j : string) (d : Db) (u : User.t) :
  get_user_by_telegram_id j d = Some u ->
  get_user_by_telegram_id j (bootstrap_one now i d) = Some u.
Proof.
  unfold get_user_by_telegram_id. rewrite users_bootstrap_one.
  apply find_app_l.
Qed.

Lemma get_user_bootstrap (now : DateTime) (l : list string) (j : string)
  (d : Db) (u : User.t) :
  get_user_by_telegram_id j d = Some u ->
  get_user_by_telegram_id j (bootstrap now l d) = Some u.
Proof.
  revert d; induction l as [|i l IH]; intros d H; [exact H|].
  rewrite bootstrap_cons. now apply IH, get_user_bootstrap_one.
Qed.

(** The rows the loop adds to [admins], and the user row behind each. *)
Lemma bootstrap_created (now : DateTime) (l : list string) (d : Db) :
  exists created,
    admins (bootstrap now l d) = admins d ++ created /\
    forall a, In a created ->
      In (Admin.user_id a) l /\ is_master_admin (Admin.user_id a) a /\
      exists u, get_user_by_telegram_id (Admin.user_id a) (bootstrap now l d)
                = Some u.
Proof.
  revert d; induction l as [|i l IH]; intros d.
  - exists []; split; [simpl; now rewrite app_nil_r|intros a []].
  - rewrite bootstrap_cons.
    destruct (IH (bootstrap_one now i d)) as [c1 [E1 H1]].
    destruct (admins_bootstrap_one now i d)
      as [[_ E]|[_ [a [E [[Hi Hm] [u Hu]]]]]].
    + exists c1. rewrite E in *. split; [exact E1|].
      intros a Ha. destruct (H1 a Ha) as [Hin Hrest].
      split; [now right|exact Hrest].
    + exists (a :: c1). split.
      * rewrite E1, E, <- app_assoc. reflexivity.
      * intros b [<-|Hb].
        -- rewrite Hi. split; [now left|]. split; [repeat split; tauto|].
           exists u. now apply get_user_bootstrap.
        -- destruct (H1 b Hb) as [Hin Hrest]. split; [now right|exact Hrest].
Qed.

(* ------------------------------------------------------------------ *)
(** ** Claims about the bootstrap *)

(** C2. Running [create_first_admins] over a list of identities never
    raises and leaves exactly one Admin row per listed identity; a second
    run over the same list, at any later time, changes nothing; every row
    the first run adds has role MASTER, is active, belongs to a listed
    identity and has its User row in the store. *)
Theorem create_first_admins_idempotent (l : list string) (w : World) :
  unique_admin_user_id (db w) ->
  exists (w1 : World) (created : list Admin.t),
    create_first_admins l w = (Returns tt, w1) /\
    (forall w2, db w2 = db w1 -> create_first_admins l w2 = (Returns tt, w2)) /\
    (forall i, In i l -> admin_rows i (db w1) = 1) /\
    admins (db w1) = admins (db w) ++ created /\
    (forall a, In a created ->
       In (Admin.user_id a) l /\
       Admin.role a = MASTER /\ Admin.is_active a = Some true /\
       exists u, get_user_by_telegram_id (Admin.user_id a) (db w1) = Some u).
Proof.
  intros U.
  destruct (bootstrap_created (utcnow w) l (db w)) as [created [E H]].
  exists (with_db (bootstrap (utcnow w) l (db w)) w), created.
  split; [apply create_first_admins_run|]. simpl.
  split; [|split; [|split]].
  - intros w2 E2. rewrite create_first_admins_run, E2, bootstrap_noop.
    + now rewrite <- E2, with_db_same.
    + intros i Hi. now apply bootstrap_covers.
  - intros i Hi.
    pose proof (bootstrap_covers (utcnow w) l (db w) i Hi) as Hge.
    pose proof (unique_bootstrap (utcnow w) l U i) as Hle.
    unfold admin_rows in *. lia.
  - exact E.
  - intros a Ha. destruct (H a Ha) as [Hin [[_ [Hr Hact]] Hu]]. auto.
Qed.

Lemma create_first_admins_idempotent_witness :
  exists (w1 : World) (created : list Admin.t),
    create_first_admins ["a"; "b"; "c"] (fresh 0%Z) = (Returns tt, w1) /\
    (forall w2, db w2 = db w1 ->
       create_first_admins ["a"; "b"; "c"] w2 = (Returns tt, w2)) /\
    (forall i, In i ["a"; "b"; "c"] -> admin_rows i (db w1) = 1) /\
    admins (db w1) = admins (db (fresh 0%Z)) ++ created /\
    (forall a, In a created ->
       In (Admin.user_id a) ["a"; "b"; "c"] /\
       Admin.role a = MASTER /\ Admin.is_active a = Some true /\
       exists u, get_user_by_telegram_id (Admin.user_id a) (db w1) = Some u).
Proof.
  apply (create_first_admins_idempotent ["a"; "b"; "c"] (fresh 0%Z)).
  intros i. simpl. lia.
Defined.

(* ------------------------------------------------------------------ *)
(** ** The start command *)

Lemma has_telegram_id_found (i : string) (d : Db) (u : User.t) :
  get_user_by_telegram_id i d = Some u -> User.telegram_id u = i.
Proof.
  unfold get_user_by_telegram_id. intros H.
  apply find_some in H. destruct H as [_ H].
  now apply String.eqb_eq.
Qed.

(** First contact: the row is inserted, read back, and the welcome menu
    is sent. *)
Lemma start_command_new (update : Update) (w : World) :
  let name := str (from_user_username update) in
  get_user_by_telegram_id name (db w) = None ->
  start_command update w
  = (Returns tt,
     mkWorld (ensure_user (utcnow w) name (db w))
             (Some "en")
             (sent w ++ [mkReply (t_ "welcome_text" (Some "en")) (Some main_menu)])
             (stdout w ++ [name])
             (utcnow w)).
Proof.
  intros name H. unfold start_command. fold name.
  unfold bind at 1. unfold query at 1. rewrite H.
  unfold bind at 1. simpl (negb (truthy None)). cbv iota.
  unfold bind at 1. rewrite execute_create_user by exact H.
  unfold query at 1. simpl db.
  assert (E : get_user_by_telegram_id name (ensure_user (utcnow w) name (db w))
              = Some (new_user (utcnow w) (only_telegram_id name) (db w))).
  { unfold ensure_user. rewrite H. apply get_user_new, H. }
  rewrite E. reflexivity.
Qed.

(** A known user: nothing is written; the reply depends on the stored
    user type alone. *)
Lemma start_command_known (update : Update) (w : World) (u : User.t) :
  get_user_by_telegram_id (str (from_user_username update)) (db w) = Some u ->
  start_command update w
  = (Returns tt,
     mkWorld (db w)
             (User.language u)
             (sent w ++
              [if UserType_eqb (User.user_type u) BANNED
               then mkReply (t_ "error_no_permission" (User.language u)) None
               else mkReply (t_ "welcome_text" (User.language u))
                            (Some main_menu)])
             (stdout w ++ [User.telegram_id u])
             (utcnow w)).
Proof.
  intros H. unfold start_command.
  unfold bind at 1. unfold query at 1. rewrite H.
  unfold bind at 1. simpl.
  unfold bind, ret, set_language, print; simpl.
  destruct (UserType_eqb (User.user_type u) BANNED); reflexivity.
Qed.

(** C3. An identity with no User row that sends [start]: one row is
    inserted for it, with user type GUEST, language en and preferred
    timeframe 30, it is then the only row of that identity, and the reply
    is the welcome text with the main menu. *)
Theorem start_command_first_contact (update : Update) (w : World) :
  user_rows (str (from_user_username update)) (db w) = 0 ->
  exists (w' : World) (u : User.t),
    start_command update w = (Returns tt, w') /\
    users (db w') = users (db w) ++ [u] /\
    is_default_user (str (from_user_username update)) u /\
    user_rows (str (from_user_username update)) (db w') = 1 /\
    sent w' = sent w ++ [mkReply (t_ "welcome_text" (Some "en"))
                                 (Some main_menu)].
Proof.
  intros H0. pose proof H0 as H. apply get_user_none_rows in H.
  eexists. exists (new_user (utcnow w) (only_telegram_id
                                          (str (from_user_username update)))
                            (db w)).
  split; [apply start_command_new; exact H|]. simpl.
  split; [|split; [|split]].
  - rewrite users_ensure, H. reflexivity.
  - repeat split.
  - unfold user_rows in *. rewrite users_ensure, H. simpl.
    rewrite filter_app, length_app, H0. simpl.
    unfold has_telegram_id; simpl. now rewrite String.eqb_refl.
  - reflexivity.
Qed.

Lemma start_command_first_contact_witness :
  exists (w' : World) (u : User.t),
    start_command (from_user "alice") (fresh 0%Z) = (Returns tt, w') /\
    users (db w') = users (db (fresh 0%Z)) ++ [u] /\
    is_default_user "alice" u /\
    user_rows "alice" (db w') = 1 /\
    sent w' = sent (fresh 0%Z) ++ [mkReply (t_ "welcome_text" (Some "en"))
                                           (Some main_menu)].
Proof.
  apply (start_command_first_contact (from_user "alice") (fresh 0%Z)).
  reflexivity.
Defined.

(** C4 (as amended). A user whose stored user type is BANNED and who sends
    [start] is answered with the no-permission message and nothing else,
    and the store is left as it was. *)
Theorem start_command_blocks_banned (update : Update) (w : World) (u : User.t) :
  get_user_by_telegram_id (str (from_user_username update)) (db w) = Some u ->
  User.user_type u = BANNED ->
  exists w' : World,
    start_command update w = (Returns tt, w') /\
    sent w' = sent w ++ [mkReply (t_ "error_no_permission" (User.language u))
                                 None] /\
    db w' = db w.
Proof.
  intros H B. eexists. split; [apply start_command_known; exact H|].
  simpl. rewrite B. split; reflexivity.
Qed.

Lemma start_command_blocks_banned_witness :
  exists w' : World,
    start_command (from_user "evil") evil_world = (Returns tt, w') /\
    sent w' = sent evil_world ++
              [mkReply (t_ "error_no_permission" (User.language evil)) None] /\
    db w' = db evil_world.
Proof.
  apply (start_command_blocks_banned (from_user "evil") evil_world (u := evil));
    reflexivity.
Defined.

(* ------------------------------------------------------------------ *)
(** ** The admin command *)

(** The caller has a User row once the bootstrap has run: the [try:]
    completes and sends exactly one reply, the admin menu or the
    not-authorized message. *)
Lemma admin_command_known (update : Update) (w : World) (u : User.t) :
  let name := str (from_user_username update) in
  let d1 := bootstrap (utcnow w) first_admins (db w) in
  get_user_by_telegram_id name d1 = Some u ->
  admin_command update w
  = (Returns tt,
     mkWorld d1 (User.language u)
             (sent w ++
              [if is_authorized name d1
               then mkReply (literal admin_welcome_text) (Some admin_menu)
               else mkReply (t_ "not_authorized" (User.language u)) None])
             (stdout w) (utcnow w)).
Proof.
  intros name d1 H. unfold admin_command. fold name.
  unfold bind at 1. rewrite create_first_admins_run. fold d1.
  unfold bind at 1. unfold query at 1. simpl db. rewrite H.
  unfold bind at 1. simpl (negb (truthy (Some u))). cbv iota.
  rewrite ret_run. unfold try_except, admin_command_try.
  unfold bind, query, set_language, subscript, ret; simpl.
  unfold is_authorized. rewrite (has_telegram_id_found _ _ H).
  destruct (active_admin (get_admin_by_user_id name d1)); reflexivity.
Qed.

(** The caller has no User row once the bootstrap has run: the row is
    inserted, but the local [user] is still [None], so the first statement
    of the [try:] raises and the handler prints the error and returns. *)
Lemma admin_command_unknown (update : Update) (w : World) :
  let name := str (from_user_username update) in
  let d1 := bootstrap (utcnow w) first_admins (db w) in
  get_user_by_telegram_id name d1 = None ->
  admin_command update w
  = (Returns tt,
     mkWorld (ensure_user (utcnow w) name d1) (formatter_language w)
             (sent w)
             (stdout w ++ ["'NoneType' object is not subscriptable"])
             (utcnow w)).
Proof.
  intros name d1 H. unfold admin_command. fold name.
  unfold bind at 1. rewrite create_first_admins_run. fold d1.
  unfold bind at 1. unfold query at 1. simpl db. rewrite H.
  unfold bind at 1. simpl (negb (truthy None)). cbv iota.
  unfold bind at 1. rewrite execute_create_user by exact H.
  rewrite ret_run. reflexivity.
Qed.

Lemma new_user_default (now : DateTime) (i : string) (d : Db) :
  is_default_user i (new_user now (only_telegram_id i) d).
Proof. repeat split. Qed.

Lemma user_rows_ensure (now : DateTime) (i j : string) (d : Db) :
  user_rows j (ensure_user now i d)
  = user_rows j d
    + (if negb (truthy (get_user_by_telegram_id i d)) && (i =? j)
       then 1 else 0).
Proof.
  unfold user_rows. rewrite users_ensure, filter_app, length_app.
  destruct (get_user_by_telegram_id i d); simpl; [reflexivity|].
  unfold has_telegram_id; simpl. destruct (i =? j); reflexivity.
Qed.

Lemma fresh_or_default_ensure (now : DateTime) (i j : string) (d : Db) :
  fresh_or_default j d -> fresh_or_default j (ensure_user now i d).
Proof.
  intros [H0|[H1 [u [Hu Hd]]]].
  - destruct (get_user_by_telegram_id i d) as [u|] eqn:Ei.
    + left. rewrite user_rows_ensure, Ei. simpl. lia.
    + destruct (String.eqb_spec i j) as [->|Hij].
      * right. rewrite user_rows_ensure, Ei, String.eqb_refl. simpl.
        split; [lia|]. eexists. split; [|apply new_user_default].
        unfold ensure_user. rewrite Ei. apply get_user_new, Ei.
      * left. rewrite user_rows_ensure, Ei. simpl.
        apply String.eqb_neq in Hij. rewrite Hij. lia.
  - right. split.
    + rewrite user_rows_ensure.
      destruct (get_user_by_telegram_id i d) as [u0|] eqn:Ei; simpl; [lia|].
      destruct (String.eqb_spec i j) as [->|Hij]; [congruence|lia].
    + exists u. split; [|exact Hd].
      unfold get_user_by_telegram_id. rewrite users_ensure.
      now apply find_app_l.
Qed.

Lemma fresh_or_default_bootstrap (now : DateTime) (l : list string)
  (j : string) (d : Db) :
  fresh_or_default j d -> fresh_or_default j (bootstrap now l d).
Proof.
  revert d; induction l as [|i l IH]; intros d H; [exact H|].
  rewrite bootstrap_cons. apply IH. unfold bootstrap_one.
  destruct (get_admin_by_user_id i d); [exact H|].
  apply (fresh_or_default_ensure now i) in H.
  destruct H as [H0|[H1 [u [Hu Hd]]]]; [left|right]; auto.
  split; [exact H1|]. exists u. split; [exact Hu|exact Hd].
Qed.

(** C9. A caller of the admin command whose identity has no User row has
    one afterwards, whether or not the caller is authorized: the command
    returns, and the store then holds exactly one row for the identity,
    with the default user type, language and timeframe. *)
Theorem admin_command_creates_user (update : Update) (w : World) :
  user_rows (str (from_user_username update)) (db w) = 0 ->
  exists (w' : World) (u : User.t),
    admin_command update w = (Returns tt, w') /\
    get_user_by_telegram_id (str (from_user_username update)) (db w') = Some u /\
    is_default_user (str (from_user_username update)) u /\
    user_rows (str (from_user_username update)) (db w') = 1.
Proof.
  intros H0. set (name := str (from_user_username update)) in *.
  assert (F : fresh_or_default name
                (bootstrap (utcnow w) first_admins (db w)))
    by (apply fresh_or_default_bootstrap; now left).
  destruct (get_user_by_telegram_id name
              (bootstrap (utcnow w) first_admins (db w))) as [u|] eqn:E.
  - destruct F as [F0|[F1 [u' [Hu' Hd]]]].
    + apply get_user_none_rows in F0. congruence.
    + eexists. exists u. split; [apply admin_command_known; exact E|].
      simpl. split; [exact E|]. split; [congruence|exact F1].
  - apply (fresh_or_default_ensure (utcnow w) name) in F.
    destruct F as [F0|[F1 [u [Hu Hd]]]].
    + exfalso. destruct (get_user_ensure (utcnow w) name
                 (bootstrap (utcnow w) first_admins (db w))) as [u Hu].
      apply get_user_none_rows in F0. fold name in F0. congruence.
    + eexists. exists u. split; [apply admin_command_unknown; exact E|].
      simpl. auto.
Qed.

Lemma admin_command_creates_user_witness :
  exists (w' : World) (u : User.t),
    admin_command (from_user "random") (fresh 0%Z) = (Returns tt, w') /\
    get_user_by_telegram_id "random" (db w') = Some u /\
    is_default_user "random" u /\
    user_rows "random" (db w') = 1.
Proof.
  apply (admin_command_creates_user (from_user "random") (fresh 0%Z)).
  reflexivity.
Defined.

(** The admin command returns, whatever the store and the caller. *)
Lemma admin_command_returns (update : Update) (w : World) :
  exists w' : World, admin_command update w = (Returns tt, w').
Proof.
  destruct (get_user_by_telegram_id (str (from_user_username update))
              (bootstrap (utcnow w) first_admins (db w))) as [u|] eqn:E.
  - eexists. apply admin_command_known. exact E.
  - eexists. apply admin_command_unknown. exact E.
Qed.

(** The authorization check is true exactly for an identity that has an
    admin row whose [is_active] is true. *)
Lemma is_authorized_iff (i : string) (d : Db) :
  is_authorized i d = true <->
  exists a, get_admin_by_user_id i d = Some a /\ Admin.is_active a = Some true.
Proof.
  unfold is_authorized, active_admin.
  destruct (get_admin_by_user_id i d) as [a|].
  - split.
    + intros H. exists a. split; [reflexivity|].
      destruct (Admin.is_active a) as [[|]|]; simpl in H; congruence.
    + intros [a' [[= <-] H]]. now rewrite H.
  - split; [discriminate|]. intros [a [H _]]. discriminate.
Qed.

Lemma is_authorized_false (i : string) (d : Db) :
  get_admin_by_user_id i d = None \/
  (exists a, get_admin_by_user_id i d = Some a /\
             Admin.is_active a <> Some true) ->
  is_authorized i d = false.
Proof.
  intros H. destruct (is_authorized i d) eqn:E; [|reflexivity].
  apply is_authorized_iff in E. destruct E as [a [Ha Hact]].
  destruct H as [H|[a' [H H']]]; congruence.
Qed.

Lemma admin_rows_ensure (now : DateTime) (i j : string) (d : Db) :
  admin_rows j (ensure_user now i d) = admin_rows j d.
Proof.
  unfold admin_rows, ensure_user.
  now destruct (get_user_by_telegram_id i d).
Qed.

Lemma admin_rows_unlisted (now : DateTime) (l : list string) (j : string)
  (d : Db) :
  ~ In j l -> admin_rows j (bootstrap now l d) = admin_rows j d.
Proof.
  revert d; induction l as [|i l IH]; intros d H; [reflexivity|].
  rewrite bootstrap_cons, IH, admin_rows_bootstrap_one.
  - destruct (String.eqb_spec i j) as [->|_].
    + exfalso. apply H. now left.
    + rewrite andb_false_r. lia.
  - intros Hin. apply H. now right.
Qed.

(** The admin command adds no admin row for an identity outside the
    bootstrap list, whatever it replies. *)
Lemma admin_command_no_admin_row (update : Update) (w : World) :
  ~ In (str (from_user_username update)) first_admins ->
  admin_rows (str (from_user_username update))
             (db (snd (admin_command update w)))
  = admin_rows (str (from_user_username update)) (db w).
Proof.
  intros H. set (name := str (from_user_username update)) in *.
  destruct (get_user_by_telegram_id name
              (bootstrap (utcnow w) first_admins (db w))) as [u|] eqn:E.
  - rewrite (admin_command_known update w E). cbn [snd db].
    now apply admin_rows_unlisted.
  - rewrite (admin_command_unknown update w E). cbn [snd db].
    rewrite admin_rows_ensure. now apply admin_rows_unlisted.
Qed.

(** C1. On an empty store, the identity "random" sends [admin]: it has no
    admin row, so it is not authorized, yet no reply is sent; the only
    trace is the printed TypeError of subscripting the [None] user. *)
Theorem admin_command_first_contact_unanswered :
  exists w' : World,
    admin_command (from_user "random") (fresh 0%Z) = (Returns tt, w') /\
    get_admin_by_user_id "random" (db w') = None /\
    is_authorized "random" (db w') = false /\
    sent w' = [] /\
    stdout w' = ["'NoneType' object is not subscriptable"].
Proof.
  eexists. split; [vm_compute; reflexivity|].
  repeat split.
Qed.

(** C5. The identity "random" is outside the bootstrap list and has no
    admin row; after it sends [admin] it still has none, but the command
    has sent nothing, so the not-authorized message is missing. *)
Theorem admin_command_stranger_unanswered :
  ~ In "random" first_admins /\
  admin_rows "random" (db (fresh 7%Z)) = 0 /\
  admin_rows "random" (db (snd (admin_command (from_user "random") (fresh 7%Z))))
  = 0 /\
  sent (snd (admin_command (from_user "random") (fresh 7%Z))) = [].
Proof.
  split; [|repeat split].
  intros [H|[H|[H|[]]]]; discriminate.
Qed.

(** C4, counterexample. The banned user "evil" sends [admin]: the reply is
    the not-authorized message, not the no-permission one, and the
    bootstrap has written to the store. *)
Lemma admin_command_ignores_ban :
  get_user_by_telegram_id "evil" (db evil_world) = Some evil /\
  User.user_type evil = BANNED /\
  sent (snd (admin_command (from_user "evil") evil_world))
  = [mkReply (t_ "not_authorized" (Some "en")) None] /\
  admin_rows "abualmun" (db evil_world) = 0 /\
  admin_rows "abualmun" (db (snd (admin_command (from_user "evil") evil_world)))
  = 1 /\
  ~ blocks_banned admin_command.
Proof.
  repeat split.
  intros H.
  destruct (H (from_user "evil") evil_world evil eq_refl eq_refl)
    as [lang [Hs _]].
  vm_compute in Hs. discriminate.
Qed.

(** C6, counterexample. On an empty store "random" sends [admin]: the
    [try:] raises on its first statement, and the user receives nothing,
    so no failure reply either. *)
Lemma admin_command_error_unanswered :
  (forall w, admin_command_try None w
             = (Raises (TypeError "'NoneType' object is not subscriptable"), w)) /\
  fst (admin_command (from_user "random") (fresh 0%Z)) = Returns tt /\
  (forall r, ~ In r (sent (snd (admin_command (from_user "random")
                                              (fresh 0%Z))))).
Proof.
  split; [reflexivity|]. split; [reflexivity|]. intros r H. exact H.
Qed.

(** C6 (as amended). The admin command is its [try:] run in the world
    the bootstrap and the lookup of the caller leave, with the printing
    handler.  If the [try:] raises an error, the command still returns:
    it has printed that error, as [str] gives it, and nothing else, and
    has sent no reply.  If the [try:] returns, the command has sent
    exactly one reply and printed nothing. *)
Theorem admin_command_error_isolated (update : Update) (w : World) :
  let name := str (from_user_username update) in
  let d1 := bootstrap (utcnow w) first_admins (db w) in
  let user := get_user_by_telegram_id name d1 in
  let w0 := with_db (ensure_user (utcnow w) name d1) w in
  admin_command update w
  = try_except (admin_command_try user) (fun e => print (str_exn e)) w0 /\
  (forall (e : Exn) (w1 : World),
     admin_command_try user w0 = (Raises e, w1) ->
     admin_command update w
     = (Returns tt,
        mkWorld (db w1) (formatter_language w1) (sent w1)
                (stdout w ++ [str_exn e]) (utcnow w1)) /\
     sent w1 = sent w) /\
  (forall w1 : World,
     admin_command_try user w0 = (Returns tt, w1) ->
     admin_command update w = (Returns tt, w1) /\
     (exists r, sent w1 = sent w ++ [r]) /\
     stdout w1 = stdout w).
Proof.
  intros name d1 user w0.
  assert (E : admin_command update w
              = try_except (admin_command_try user)
                           (fun e => print (str_exn e)) w0).
  { unfold user, w0, d1, name.
    destruct (get_user_by_telegram_id (str (from_user_username update))
                (bootstrap (utcnow w) first_admins (db w))) as [u|] eqn:Eu.
    - rewrite (admin_command_known update w Eu).
      unfold ensure_user. rewrite Eu.
      unfold try_except, admin_command_try.
      unfold bind, query, set_language, subscript, ret; simpl.
      unfold is_authorized. rewrite (has_telegram_id_found _ _ Eu).
      destruct (active_admin _); reflexivity.
    - rewrite (admin_command_unknown update w Eu). reflexivity. }
  split; [exact E|]. rewrite E. unfold try_except.
  split.
  - intros e w1 H. rewrite H.
    assert (S : sent w1 = sent w /\ stdout w1 = stdout w).
    { unfold user, admin_command_try in H.
      destruct (get_user_by_telegram_id name d1) as [u|].
      - unfold bind, query, set_language, subscript, ret in H; simpl in H.
        destruct (active_admin _) in H; discriminate.
      - injection H as _ <-. split; reflexivity. }
    destruct S as [S1 S2]. split; [|exact S1].
    unfold print. now rewrite S2.
  - intros w1 H. rewrite H. split; [reflexivity|].
    unfold user, admin_command_try in H.
    destruct (get_user_by_telegram_id name d1) as [u|].
    + unfold bind, query, set_language, subscript, ret in H; simpl in H.
      destruct (active_admin _) in H; injection H as <-; simpl;
        (split; [eexists; reflexivity|reflexivity]).
    + discriminate.
Qed.

Lemma admin_command_error_isolated_witness :
  admin_command (from_user "random") (fresh 0%Z)
  = (Returns tt,
     mkWorld (ensure_user 0%Z "random" (bootstrap 0%Z first_admins empty_db))
             None []
             [str_exn (TypeError "'NoneType' object is not subscriptable")]
             0%Z) /\
  (exists r, sent (snd (admin_command (from_user "evil") evil_world))
             = sent evil_world ++ [r]) /\
  stdout (snd (admin_command (from_user "evil") evil_world))
  = stdout evil_world.
Proof.
  split.
  - destruct (admin_command_error_isolated (from_user "random") (fresh 0%Z))
      as (_ & H & _).
    destruct (H (TypeError "'NoneType' object is not subscriptable")
                (with_db (ensure_user 0%Z "random"
                            (bootstrap 0%Z first_admins empty_db))
                         (fresh 0%Z)) eq_refl) as [E _].
    exact E.
  - destruct (admin_command_error_isolated (from_user "evil") evil_world)
      as (_ & _ & H).
    destruct (H (snd (admin_command (from_user "evil") evil_world)) eq_refl)
      as (_ & H1 & H2).
    split; assumption.
Defined.

(* ------------------------------------------------------------------ *)
(** ** Admin rows and their defaults *)

(** C10. An Admin row created without a role and without [is_active]
    gets role NORMAL and is active; the same insert with the role MASTER
    given, as the bootstrap does, gets MASTER. *)
Theorem create_admin_defaults (now : DateTime) (i : string)
  (creator : option string) (d : Db) (u : User.t) :
  get_user_by_telegram_id i d = Some u ->
  get_admin_by_user_id i d = None ->
  (exists (a : Admin.t) (d' : Db),
     create_admin now (mk_admin_fields i None creator None) d = inr (a, d') /\
     Admin.role a = NORMAL /\ Admin.is_active a = Some true /\
     get_admin_by_user_id i d' = Some a) /\
  (exists (a : Admin.t) (d' : Db),
     create_admin now (bootstrap_fields i) d = inr (a, d') /\
     Admin.role a = MASTER /\ Admin.is_active a = Some true /\
     get_admin_by_user_id i d' = Some a).
Proof.
  intros Hu Ha.
  assert (F : forall f, af_user_id f = i ->
            get_admin_by_user_id i
              (with_admins (admins d ++ [new_admin now f d]) d)
            = Some (new_admin now f d)).
  { intros f Hf. unfold get_admin_by_user_id in *. simpl.
    rewrite (find_app_none _ _ _ Ha). simpl.
    unfold has_user_id; simpl. now rewrite Hf, String.eqb_refl. }
  split; eexists; eexists; (split; [unfold create_admin; simpl;
                                    rewrite Hu, Ha; reflexivity|]);
    (split; [reflexivity|split; [reflexivity|now apply F]]).
Qed.

Lemma create_admin_defaults_witness :
  (exists (a : Admin.t) (d' : Db),
     create_admin 0%Z (mk_admin_fields "evil" None None None)
                  (db evil_world) = inr (a, d') /\
     Admin.role a = NORMAL /\ Admin.is_active a = Some true /\
     get_admin_by_user_id "evil" d' = Some a) /\
  (exists (a : Admin.t) (d' : Db),
     create_admin 0%Z (bootstrap_fields "evil") (db evil_world) = inr (a, d') /\
     Admin.role a = MASTER /\ Admin.is_active a = Some true /\
     get_admin_by_user_id "evil" d' = Some a).
Proof.
  apply (create_admin_defaults 0%Z "evil" None (db evil_world) (u := evil));
    reflexivity.
Defined.

(* ------------------------------------------------------------------ *)
(** ** Coin prices: insert-or-update on (coin_id, currency) *)

Lemma existsb_false_filter {A : Type} (f : A -> bool) (l : list A) :
  existsb f l = false -> filter f l = [].
Proof.
  induction l as [|x l IH]; simpl; [reflexivity|].
  destruct (f x); simpl; [discriminate|exact IH].
Qed.

Lemma existsb_true_filter {A : Type} (f : A -> bool) (l : list A) :
  existsb f l = true -> 1 <= length (filter f l).
Proof.
  induction l as [|x l IH]; simpl; [discriminate|].
  destruct (f x); simpl; [lia|exact IH].
Qed.

Lemma filter_existsb {A : Type} (f : A -> bool) (l : list A) :
  1 <= length (filter f l) -> existsb f l = true.
Proof.
  intros H. destruct (existsb f l) eqn:E; [reflexivity|].
  apply existsb_false_filter in E. rewrite E in H. simpl in H. lia.
Qed.

Lemma filter_map_keys {A : Type} (f : A -> bool) (g : A -> A) (l : list A) :
  (forall x, f (g x) = f x) ->
  filter f (map g l) = map g (filter f l).
Proof.
  intros H. induction l as [|x l IH]; simpl; [reflexivity|].
  rewrite H. destruct (f x); simpl; now rewrite IH.
Qed.

Lemma upsert_row_keys (now : DateTime) (c cur c' cur' : string)
  (v : price_fields) (p : CoinPrice.t) :
  same_coin_currency c' cur' (upsert_row now c cur v p)
  = same_coin_currency c' cur' p.
Proof. unfold upsert_row. now destruct (same_coin_currency c cur p). Qed.

Lemma upsert_present (now : DateTime) (c cur : string) (v : price_fields)
  (d : Db) :
  1 <= price_rows c cur d ->
  upsert_coin_price now c cur v d
  = inr (with_coin_prices (map (upsert_row now c cur v) (coin_prices d)) d).
Proof.
  intros H. unfold upsert_coin_price.
  now rewrite (filter_existsb _ _ H).
Qed.

Lemma upsert_absent (now : DateTime) (c cur : string) (v : price_fields)
  (d : Db) :
  price_rows c cur d = 0 ->
  upsert_coin_price now c cur v d
  = inr (with_coin_prices (coin_prices d ++ [new_price now c cur v d]) d).
Proof.
  intros H. unfold upsert_coin_price.
  destruct (existsb (same_coin_currency c cur) (coin_prices d)) eqn:E;
    [|reflexivity].
  apply existsb_true_filter in E. unfold price_rows in H. lia.
Qed.

(** The upsert never fails; it leaves the number of rows of every other
    pair as it was and the number of rows of its own pair at one, if it
    was at most one. *)
Lemma upsert_rows (now : DateTime) (c cur : string) (v : price_fields)
  (d : Db) :
  exists d1,
    upsert_coin_price now c cur v d = inr d1 /\
    forall c' cur',
      price_rows c' cur' d1
      = if (c =? c') && (cur =? cur')
        then Nat.max 1 (price_rows c' cur' d)
        else price_rows c' cur' d.
Proof.
  destruct (price_rows c cur d) as [|n] eqn:E.
  - eexists. split; [now apply upsert_absent|].
    intros c' cur'. unfold price_rows. simpl.
    rewrite filter_app, length_app. simpl.
    unfold same_coin_currency at 2. simpl.
    destruct (String.eqb_spec c c') as [<-|]; simpl; [|lia].
    destruct (String.eqb_spec cur cur') as [<-|]; simpl; [|lia].
    unfold price_rows in E. rewrite E. reflexivity.
  - eexists. split; [apply upsert_present; lia|].
    intros c' cur'. unfold price_rows. simpl.
    rewrite filter_map_keys by (intros; apply upsert_row_keys).
    rewrite length_map.
    destruct (String.eqb_spec c c') as [<-|]; simpl; [|reflexivity].
    destruct (String.eqb_spec cur cur') as [<-|]; simpl; [|reflexivity].
    unfold price_rows in E. rewrite E. lia.
Qed.

Lemma upsert_unique (now : DateTime) (c cur : string) (v : price_fields)
  (d d1 : Db) :
  unique_coin_currency d ->
  upsert_coin_price now c cur v d = inr d1 ->
  unique_coin_currency d1 /\ price_rows c cur d1 = 1.
Proof.
  intros U E. destruct (upsert_rows now c cur v d) as [d1' [E' R]].
  rewrite E in E'. injection E' as <-. split.
  - intros c' cur'. fold (price_rows c' cur' d1). rewrite R.
    specialize (U c' cur'). fold (price_rows c' cur' d) in U.
    destruct ((c =? c') && (cur =? cur')); lia.
  - rewrite R, !String.eqb_refl. cbn [andb].
    specialize (U c cur). fold (price_rows c cur d) in U. lia.
Qed.

(** C8. Writing a CoinPrice twice for the same (coin_id, currency): no
    write fails; the second one updates the row of the first in place
    (the same rows under the same primary keys, the pair's row carrying
    the second values); and the unique constraint holds after each write,
    with exactly one row for the pair. *)
Theorem upsert_coin_price_twice (now1 now2 : DateTime) (c cur : string)
  (v1 v2 : price_fields) (d : Db) :
  unique_coin_currency d ->
  exists d1 d2 : Db,
    upsert_coin_price now1 c cur v1 d = inr d1 /\
    upsert_coin_price now2 c cur v2 d1 = inr d2 /\
    unique_coin_currency d1 /\ unique_coin_currency d2 /\
    price_rows c cur d1 = 1 /\ price_rows c cur d2 = 1 /\
    map CoinPrice.id (coin_prices d2) = map CoinPrice.id (coin_prices d1) /\
    (forall p, In p (coin_prices d2) -> same_coin_currency c cur p = true ->
       CoinPrice.price p = pf_price v2 /\
       CoinPrice.market_cap p = pf_market_cap v2 /\
       CoinPrice.volume_24h p = pf_volume_24h v2 /\
       CoinPrice.price_change_24h p = pf_price_change_24h v2 /\
       CoinPrice.last_updated p = Some now2).
Proof.
  intros U.
  destruct (upsert_rows now1 c cur v1 d) as [d1 [E1 _]].
  destruct (upsert_unique _ _ _ _ U E1) as [U1 R1].
  assert (E2 := upsert_present now2 c cur v2 d1).
  rewrite R1 in E2. specialize (E2 (le_n 1)).
  destruct (upsert_unique _ _ _ _ U1 E2) as [U2 R2].
  exists d1. eexists. split; [exact E1|]. split; [exact E2|].
  repeat (split; [assumption|]). split.
  - simpl. rewrite map_map. apply map_ext. intros p.
    unfold upsert_row. now destruct (same_coin_currency c cur p).
  - simpl. intros p Hin Hp. apply in_map_iff in Hin.
    destruct Hin as [q [<- _]]. rewrite upsert_row_keys in Hp.
    unfold upsert_row. rewrite Hp. repeat split.
Qed.

Lemma upsert_coin_price_twice_witness :
  exists d1 d2 : Db,
    upsert_coin_price 1%Z "bitcoin" "usd"
      (mk_price_fields (Some (1#1)%Q) None None None) empty_db = inr d1 /\
    upsert_coin_price 2%Z "bitcoin" "usd"
      (mk_price_fields (Some (2#1)%Q) None None None) d1 = inr d2 /\
    unique_coin_currency d1 /\ unique_coin_currency d2 /\
    price_rows "bitcoin" "usd" d1 = 1 /\ price_rows "bitcoin" "usd" d2 = 1 /\
    map CoinPrice.id (coin_prices d2) = map CoinPrice.id (coin_prices d1) /\
    (forall p, In p (coin_prices d2) ->
       same_coin_currency "bitcoin" "usd" p = true ->
       CoinPrice.price p = Some (2#1)%Q /\
       CoinPrice.market_cap p = None /\
       CoinPrice.volume_24h p = None /\
       CoinPrice.price_change_24h p = None /\
       CoinPrice.last_updated p = Some 2%Z).
Proof.
  apply (upsert_coin_price_twice 1%Z 2%Z "bitcoin" "usd"
           (mk_price_fields (Some (1#1)%Q) None None None)
           (mk_price_fields (Some (2#1)%Q) None None None) (d := empty_db)).
  intros c cur. simpl. lia.
Defined.

(* ------------------------------------------------------------------ *)
(** ** Deletes and the declared cascades *)

(** The relationships whose cascade includes delete. *)
Lemma cascading_relationships :
  filter cascades_delete relationships
  = [Coin_prices; Coin_ohlc_data; Coin_trending_data;
     User_activities; Admin_activities].
Proof. reflexivity. Qed.

(** What a delete reaches, class by class. *)
Lemma cascaded_Coin (c : Coin.t) (d : Db) :
  cascaded (a_Coin c) d
  = map a_CoinPrice
        (filter (fun p => CoinPrice.coin_id p =? Coin.id c) (coin_prices d))
    ++ map a_OHLC (filter (fun o => OHLC.coin_id o =? Coin.id c) (ohlc d))
    ++ map a_TrendingCoin
           (filter (fun t => TrendingCoin.coin_id t =? Coin.id c)
                   (trending_coins d)).
Proof.
  unfold cascaded. rewrite cascading_relationships. simpl.
  now rewrite app_nil_r.
Qed.

Lemma cascaded_User (u : User.t) (d : Db) :
  cascaded (a_User u) d
  = map a_UserActivity
        (filter (fun x => UserActivity.user_id x =? User.telegram_id u)
                (user_activities d)).
Proof.
  unfold cascaded. rewrite cascading_relationships. simpl.
  now rewrite app_nil_r.
Qed.

Lemma cascaded_Admin (a : Admin.t) (d : Db) :
  cascaded (an_Admin a) d
  = map an_AdminActivity
        (filter (fun x => AdminActivity.admin_id x =? Admin.user_id a)
                (admin_activities d)).
Proof.
  unfold cascaded. rewrite cascading_relationships. simpl.
  now rewrite app_nil_r.
Qed.

Lemma cascaded_children (o : Obj) (d : Db) (c : Obj) :
  In c (cascaded o d) -> is_child c.
Proof.
  destruct o; try (intros []).
  - rewrite cascaded_Coin, !in_app_iff, !in_map_iff.
    intros [[x [<- _]]|[[x [<- _]]|[x [<- _]]]]; exact I.
  - rewrite cascaded_User, in_map_iff. intros [x [<- _]]. exact I.
  - rewrite cascaded_Admin, in_map_iff. intros [x [<- _]]. exact I.
Qed.

(** The delete of a child reaches nothing, so following the cascades one
    level deep is following them all the way. *)
Lemma cascade_one_level (o : Obj) (d d' : Db) (c : Obj) :
  In c (cascaded o d) -> cascaded c d' = [].
Proof.
  intros H. apply cascaded_children in H.
  destruct c; try contradiction; reflexivity.
Qed.

Section Deleted.

Variable A : Type.
Variable table : Db -> list A.

(** Rows of a table that a sequence of deletes leaves were there before,
    and are not among the deleted objects. *)
Section Gone.
Variable obj : A -> Obj.
Hypothesis delete_row_gone :
  forall o d x, In x (table (delete_row o d)) -> In x (table d) /\ o <> obj x.


End Gone.

(** Rows that no delete of the sequence is aimed at stay. *)
Section Kept.
Variable spares : Obj -> A -> Prop.
Hypothesis delete_row_kept :
  forall o d y, In y (table d) -> spares o y -> In y (table (delete_row o d)).


End Kept.

End Deleted.





















(* ------------------------------------------------------------------ *)
(** ** The admin command, for callers the store already knows *)

(** X1. The authorization check holds exactly for an identity with an
    admin row whose [is_active] is true.  A caller whose user row is
    found by the lookup that follows the bootstrap (the caller had a row
    before the command, or is a listed identity to which the bootstrap
    has just given one) gets exactly one reply: the admin menu if the
    check holds, the not-authorized message if it does not.  A caller
    whose row is only inserted after that lookup is not covered. *)
Theorem admin_command_answers_known (update : Update) (w : World) (u : User.t) :
  get_user_by_telegram_id (str (from_user_username update))
    (bootstrap (utcnow w) first_admins (db w)) = Some u ->
  exists w' : World,
    admin_command update w = (Returns tt, w') /\
    (is_authorized (str (from_user_username update)) (db w') = true <->
     exists a, get_admin_by_user_id (str (from_user_username update)) (db w')
               = Some a /\ Admin.is_active a = Some true) /\
    (is_authorized (str (from_user_username update)) (db w') = true ->
     sent w' = sent w ++ [mkReply (literal admin_welcome_text)
                                  (Some admin_menu)]) /\
    (is_authorized (str (from_user_username update)) (db w') = false ->
     sent w' = sent w ++ [mkReply (t_ "not_authorized" (User.language u))
                                  None]).
Proof.
  intros H. eexists. split; [apply admin_command_known; exact H|].
  cbn [db sent]. split; [apply is_authorized_iff|].
  split; intros E; rewrite E; reflexivity.
Qed.

Lemma admin_command_answers_known_witness :
  exists w' : World,
    admin_command (from_user "evil") evil_world = (Returns tt, w') /\
    (is_authorized "evil" (db w') = true <->
     exists a, get_admin_by_user_id "evil" (db w') = Some a /\
               Admin.is_active a = Some true) /\
    (is_authorized "evil" (db w') = true ->
     sent w' = sent evil_world ++ [mkReply (literal admin_welcome_text)
                                           (Some admin_menu)]) /\
    (is_authorized "evil" (db w') = false ->
     sent w' = sent evil_world ++
               [mkReply (t_ "not_authorized" (User.language evil)) None]).
Proof.
  apply (admin_command_answers_known (from_user "evil") evil_world (u := evil)).
  reflexivity.
Defined.

(** X2. The admin command never adds an admin row for an identity outside
    the bootstrap list, and never raises. *)
Theorem admin_command_adds_no_admin (update : Update) (w : World) :
  ~ In (str (from_user_username update)) first_admins ->
  fst (admin_command update w) = Returns tt /\
  admin_rows (str (from_user_username update))
             (db (snd (admin_command update w)))
  = admin_rows (str (from_user_username update)) (db w).
Proof.
  intros H. split; [|now apply admin_command_no_admin_row].
  destruct (admin_command_returns update w) as [w' E].
  now rewrite E.
Qed.

Lemma admin_command_adds_no_admin_witness :
  fst (admin_command (from_user "random") (fresh 0%Z)) = Returns tt /\
  admin_rows "random" (db (snd (admin_command (from_user "random") (fresh 0%Z))))
  = admin_rows "random" (db (fresh 0%Z)).
Proof.
  apply (admin_command_adds_no_admin (from_user "random") (fresh 0%Z)).
  intros [H|[H|[H|[]]]]; discriminate.
Defined.

(* ------------------------------------------------------------------ *)
(** ** What the two handlers do to the store *)

(** The store after [start_command]: the caller's row ensured, nothing
    else. *)
Lemma start_command_db (update : Update) (w : World) :
  db (snd (start_command update w))
  = ensure_user (utcnow w) (str (from_user_username update)) (db w).
Proof.
  destruct (get_user_by_telegram_id (str (from_user_username update)) (db w))
    as [u|] eqn:E.
  - rewrite (start_command_known update w E). unfold ensure_user.
    now rewrite E.
  - now rewrite (start_command_new update w E).
Qed.

(** The store after [admin_command]: the bootstrap, then the caller's row
    ensured. *)
Lemma admin_command_db (update : Update) (w : World) :
  db (snd (admin_command update w))
  = ensure_user (utcnow w) (str (from_user_username update))
                (bootstrap (utcnow w) first_admins (db w)).
Proof.
  destruct (get_user_by_telegram_id (str (from_user_username update))
              (bootstrap (utcnow w) first_admins (db w))) as [u|] eqn:E.
  - rewrite (admin_command_known update w E). cbn [snd db].
    unfold ensure_user. now rewrite E.
  - now rewrite (admin_command_unknown update w E).
Qed.

Lemma grows_refl (d : Db) : grows d d.
Proof.
  unfold grows. repeat split; try reflexivity;
    exists []; now rewrite app_nil_r.
Qed.

Lemma grows_trans (d1 d2 d3 : Db) : grows d1 d2 -> grows d2 d3 -> grows d1 d3.
Proof.
  unfold grows.
  intros (A1 & A2 & A3 & A4 & A5 & A6 & [us1 A7] & [ads1 A8])
         (B1 & B2 & B3 & B4 & B5 & B6 & [us2 B7] & [ads2 B8]).
  repeat split; try congruence.
  - exists (us1 ++ us2). now rewrite B7, A7, app_assoc.
  - exists (ads1 ++ ads2). now rewrite B8, A8, app_assoc.
Qed.

Lemma grows_ensure (now : DateTime) (i : string) (d : Db) :
  grows d (ensure_user now i d).
Proof.
  unfold ensure_user. destruct (get_user_by_telegram_id i d).
  - apply grows_refl.
  - unfold grows; simpl. repeat split; try reflexivity.
    + eexists; reflexivity.
    + exists []; now rewrite app_nil_r.
Qed.

Lemma grows_bootstrap_one (now : DateTime) (i : string) (d : Db) :
  grows d (bootstrap_one now i d).
Proof.
  unfold bootstrap_one. destruct (get_admin_by_user_id i d).
  - apply grows_refl.
  - eapply grows_trans; [apply (grows_ensure now i)|].
    unfold grows; simpl. repeat split; try reflexivity.
    + exists []; now rewrite app_nil_r.
    + eexists; reflexivity.
Qed.

Lemma grows_bootstrap (now : DateTime) (l : list string) (d : Db) :
  grows d (bootstrap now l d).
Proof.
  revert d; induction l as [|i l IH]; intros d; [apply grows_refl|].
  rewrite bootstrap_cons.
  eapply grows_trans; [apply grows_bootstrap_one|apply IH].
Qed.

Lemma handlers_grow (update : Update) (w : World) :
  grows (db w) (db (snd (start_command update w))) /\
  grows (db w) (db (snd (admin_command update w))).
Proof.
  rewrite start_command_db, admin_command_db. split.
  - apply grows_ensure.
  - eapply grows_trans; [apply grows_bootstrap|apply grows_ensure].
Qed.

(** X3. Neither handler ever changes or removes a row: after [start] or
    [admin] every table but [users] and [admins] is what it was, and
    these two hold their old rows, in place, followed by whatever was
    inserted; [start] inserts no admin row. *)
Theorem handlers_only_append (update : Update) (w : World) :
  grows (db w) (db (snd (start_command update w))) /\
  admins (db (snd (start_command update w))) = admins (db w) /\
  grows (db w) (db (snd (admin_command update w))).
Proof.
  rewrite start_command_db, admin_command_db. split; [|split].
  - apply grows_ensure.
  - unfold ensure_user.
    now destruct (get_user_by_telegram_id _ (db w)).
  - eapply grows_trans; [apply grows_bootstrap|apply grows_ensure].
Qed.

(* ------------------------------------------------------------------ *)
(** ** Constraints the handlers keep *)

Lemma unique_telegram_ensure (now : DateTime) (i : string) (d : Db) :
  unique_telegram_id d -> unique_telegram_id (ensure_user now i d).
Proof.
  intros U j. fold (user_rows j (ensure_user now i d)).
  rewrite user_rows_ensure.
  specialize (U j). fold (user_rows j d) in U.
  destruct (get_user_by_telegram_id i d) as [u|] eqn:E; simpl; [lia|].
  destruct (String.eqb_spec i j) as [->|]; [|lia].
  apply get_user_none_rows in E. lia.
Qed.

Lemma unique_admin_ensure (now : DateTime) (i : string) (d : Db) :
  unique_admin_user_id d -> unique_admin_user_id (ensure_user now i d).
Proof.
  intros U j. fold (admin_rows j (ensure_user now i d)).
  rewrite admin_rows_ensure. apply U.
Qed.

Lemma unique_telegram_bootstrap_one (now : DateTime) (i : string) (d : Db) :
  unique_telegram_id d -> unique_telegram_id (bootstrap_one now i d).
Proof.
  intros U. unfold bootstrap_one.
  destruct (get_admin_by_user_id i d); [exact U|].
  exact (unique_telegram_ensure now i U).
Qed.

Lemma unique_telegram_bootstrap (now : DateTime) (l : list string) (d : Db) :
  unique_telegram_id d -> unique_telegram_id (bootstrap now l d).
Proof.
  revert d; induction l as [|i l IH]; intros d U; [exact U|].
  rewrite bootstrap_cons. apply IH, unique_telegram_bootstrap_one, U.
Qed.

Lemma unique_market_grows (d d' : Db) :
  grows d d' ->
  unique_coin_currency d /\ unique_coin_timestamp d /\ unique_trending_coin d ->
  unique_coin_currency d' /\ unique_coin_timestamp d' /\ unique_trending_coin d'.
Proof.
  intros (_ & G2 & G3 & G4 & _) (U1 & U2 & U3).
  unfold unique_coin_currency, unique_coin_timestamp, unique_trending_coin.
  rewrite G2, G3, G4. auto.
Qed.

(** X4. The handlers never break a unique constraint: if the store
    satisfies every unique constraint declared in database.py, it still
    does after [start] and after [admin]. *)
Theorem handlers_keep_unique_constraints (update : Update) (w : World) :
  unique_constraints (db w) ->
  unique_constraints (db (snd (start_command update w))) /\
  unique_constraints (db (snd (admin_command update w))).
Proof.
  intros (U1 & U2 & U3 & U4 & U5).
  destruct (handlers_grow update w) as (G1 & G2).
  destruct (unique_market_grows G1 (conj U1 (conj U2 U3))) as (A1 & A2 & A3).
  destruct (unique_market_grows G2 (conj U1 (conj U2 U3))) as (B1 & B2 & B3).
  rewrite start_command_db, admin_command_db in *.
  split; unfold unique_constraints; repeat (split; [assumption|]).
  - split; [now apply unique_telegram_ensure|now apply unique_admin_ensure].
  - split.
    + now apply unique_telegram_ensure, unique_telegram_bootstrap.
    + now apply unique_admin_ensure, unique_bootstrap.
Qed.

Lemma handlers_keep_unique_constraints_witness :
  unique_constraints (db (snd (start_command (from_user "alice") (fresh 0%Z)))) /\
  unique_constraints (db (snd (admin_command (from_user "alice") (fresh 0%Z)))).
Proof.
  apply (handlers_keep_unique_constraints (from_user "alice") (fresh 0%Z)).
  unfold unique_constraints, unique_coin_currency, unique_coin_timestamp,
    unique_trending_coin, unique_telegram_id, unique_admin_user_id.
  simpl. repeat split; intros; lia.
Defined.

Lemma get_user_grows_ensure (now : DateTime) (i j : string) (d : Db) (u : User.t) :
  get_user_by_telegram_id j d = Some u ->
  get_user_by_telegram_id j (ensure_user now i d) = Some u.
Proof.
  unfold get_user_by_telegram_id. rewrite users_ensure. apply find_app_l.
Qed.

Lemma admins_ensure (now : DateTime) (i : string) (d : Db) :
  admins (ensure_user now i d) = admins d.
Proof. unfold ensure_user. now destruct (get_user_by_telegram_id i d). Qed.

Lemma foreign_key_ensure (now : DateTime) (i : string) (d : Db) :
  admins_have_users d -> admins_have_users (ensure_user now i d).
Proof.
  intros F a Ha. rewrite admins_ensure in Ha.
  destruct (F a Ha) as [u Hu]. exists u. now apply get_user_grows_ensure.
Qed.

Lemma foreign_key_bootstrap_one (now : DateTime) (i : string) (d : Db) :
  admins_have_users d -> admins_have_users (bootstrap_one now i d).
Proof.
  intros F. destruct (admins_bootstrap_one now i d)
    as [[_ E]|[_ [a [E [[Hi _] [u Hu]]]]]].
  - now rewrite E.
  - intros b Hb. rewrite E in Hb. apply in_app_or in Hb.
    destruct Hb as [Hb|[<-|[]]].
    + destruct (F b Hb) as [v Hv]. exists v.
      now apply get_user_bootstrap_one.
    + exists u. now rewrite Hi.
Qed.

Lemma foreign_key_bootstrap (now : DateTime) (l : list string) (d : Db) :
  admins_have_users d -> admins_have_users (bootstrap now l d).
Proof.
  revert d; induction l as [|i l IH]; intros d F; [exact F|].
  rewrite bootstrap_cons. apply IH, foreign_key_bootstrap_one, F.
Qed.

(** X5. The handlers keep the foreign key of [admins.user_id]: if every
    admin row has its user row before [start] or [admin], every admin row
    has its user row after it, the rows of the bootstrap included. *)
Theorem handlers_keep_foreign_key (update : Update) (w : World) :
  admins_have_users (db w) ->
  admins_have_users (db (snd (start_command update w))) /\
  admins_have_users (db (snd (admin_command update w))).
Proof.
  intros F. rewrite start_command_db, admin_command_db. split.
  - now apply foreign_key_ensure.
  - now apply foreign_key_ensure, foreign_key_bootstrap.
Qed.

Lemma handlers_keep_foreign_key_witness :
  admins_have_users (db (snd (start_command (from_user "hooibi") hooibi_world))) /\
  admins_have_users (db (snd (admin_command (from_user "hooibi") hooibi_world))).
Proof.
  apply (handlers_keep_foreign_key (from_user "hooibi") hooibi_world).
  intros a [<-|[]]. now exists hooibi.
Defined.

(* ------------------------------------------------------------------ *)
(** ** More on the start command *)

(** X6. [start_command] never raises, whoever calls and whatever the
    store holds: it returns after printing the caller's identity and
    sending exactly one reply, the no-permission message without a
    keyboard for a banned caller and the welcome text with the main menu
    for any other, in the language stored for the caller. *)
Theorem start_command_replies_once (update : Update) (w : World) :
  exists (w' : World) (u : User.t),
    start_command update w = (Returns tt, w') /\
    get_user_by_telegram_id (str (from_user_username update)) (db w') = Some u /\
    stdout w' = stdout w ++ [str (from_user_username update)] /\
    sent w' = sent w ++
              [if UserType_eqb (User.user_type u) BANNED
               then mkReply (t_ "error_no_permission" (User.language u)) None
               else mkReply (t_ "welcome_text" (User.language u))
                            (Some main_menu)].
Proof.
  destruct (get_user_by_telegram_id (str (from_user_username update)) (db w))
    as [u|] eqn:E.
  - eexists. exists u. split; [apply start_command_known; exact E|].
    cbn [db stdout sent]. rewrite (has_telegram_id_found _ _ E). auto.
  - eexists.
    exists (new_user (utcnow w)
                     (only_telegram_id (str (from_user_username update)))
                     (db w)).
    split; [apply start_command_new; exact E|].
    cbn [db stdout sent]. split; [|split; reflexivity].
    unfold ensure_user. rewrite E. apply get_user_new, E.
Qed.

(** X7. A second [start] by the same caller writes nothing and repeats
    the reply of the first: the row inserted at first contact is the one
    found afterwards. *)
Theorem start_command_twice (update : Update) (w : World) :
  db (snd (start_command update (snd (start_command update w))))
  = db (snd (start_command update w)) /\
  exists r : Reply,
    sent (snd (start_command update w)) = sent w ++ [r] /\
    sent (snd (start_command update (snd (start_command update w))))
    = sent w ++ [r; r].
Proof.
  destruct (start_command_replies_once update w) as [w1 [u [E1 [Hu [_ S1]]]]].
  rewrite E1. cbn [snd].
  rewrite (start_command_known update w1 Hu). cbn [snd db sent].
  split; [reflexivity|]. eexists. split; [exact S1|].
  rewrite S1, <- app_assoc. reflexivity.
Qed.

(* ------------------------------------------------------------------ *)
(** ** More on the admin command *)

Lemma get_admin_bootstrap_one (now : DateTime) (i j : string) (d : Db)
  (a : Admin.t) :
  get_admin_by_user_id j d = Some a ->
  get_admin_by_user_id j (bootstrap_one now i d) = Some a.
Proof.
  intros H. destruct (admins_bootstrap_one now i d) as [[_ E]|[_ [b [E _]]]].
  - now rewrite E.
  - unfold get_admin_by_user_id in *. rewrite E. now apply find_app_l.
Qed.

Lemma get_admin_bootstrap (now : DateTime) (l : list string) (j : string)
  (d : Db) (a : Admin.t) :
  get_admin_by_user_id j d = Some a ->
  get_admin_by_user_id j (bootstrap now l d) = Some a.
Proof.
  revert d; induction l as [|i l IH]; intros d H; [exact H|].
  rewrite bootstrap_cons. now apply IH, get_admin_bootstrap_one.
Qed.

(** X8. A deactivated admin stays out, on the bootstrap list or not: if
    the caller has a user row and an admin row whose [is_active] is not
    true, [admin] answers with the not-authorized message in the caller's
    language, and the admin row is afterwards what it was; the bootstrap
    neither re-activates nor replaces it. *)
Theorem deactivated_admin_stays_out (update : Update) (w : World)
  (a : Admin.t) (u : User.t) :
  get_admin_by_user_id (str (from_user_username update)) (db w) = Some a ->
  Admin.is_active a <> Some true ->
  get_user_by_telegram_id (str (from_user_username update)) (db w) = Some u ->
  exists w' : World,
    admin_command update w = (Returns tt, w') /\
    sent w' = sent w ++ [not_authorized_reply (User.language u)] /\
    get_admin_by_user_id (str (from_user_username update)) (db w') = Some a.
Proof.
  intros Ha Hact Hu.
  apply (get_user_bootstrap (utcnow w) first_admins) in Hu.
  apply (get_admin_bootstrap (utcnow w) first_admins) in Ha.
  eexists. split; [apply admin_command_known; exact Hu|]. cbn [sent db].
  split; [|exact Ha].
  rewrite is_authorized_false; [reflexivity|].
  right. exists a. auto.
Qed.

Lemma deactivated_admin_stays_out_witness :
  exists w' : World,
    admin_command (from_user "hooibi") hooibi_world = (Returns tt, w') /\
    sent w' = sent hooibi_world ++ [not_authorized_reply (User.language hooibi)] /\
    get_admin_by_user_id "hooibi" (db w') = Some hooibi_admin.
Proof.
  apply (deactivated_admin_stays_out (from_user "hooibi") hooibi_world
           (a := hooibi_admin) (u := hooibi));
    [reflexivity|discriminate|reflexivity].
Defined.

(** X9. [start] first, [admin] next: a caller outside the bootstrap list
    who has no admin row and has sent [start] is answered by [admin] with
    the not-authorized message, in the language of the row that [start]
    found or inserted. *)
Theorem start_then_admin (update : Update) (w : World) :
  ~ In (str (from_user_username update)) first_admins ->
  admin_rows (str (from_user_username update)) (db w) = 0 ->
  exists u : User.t,
    get_user_by_telegram_id (str (from_user_username update))
      (db (snd (start_command update w))) = Some u /\
    sent (snd (admin_command update (snd (start_command update w))))
    = sent (snd (start_command update w))
      ++ [not_authorized_reply (User.language u)].
Proof.
  intros Hl H0. set (name := str (from_user_username update)) in *.
  destruct (start_command_replies_once update w) as [w1 [u [E1 [Hu _]]]].
  fold name in Hu.
  assert (A1 : admin_rows name (db w1) = 0).
  { replace (db w1) with (db (snd (start_command update w)))
      by now rewrite E1.
    rewrite start_command_db. now rewrite admin_rows_ensure. }
  rewrite E1. cbn [snd]. exists u. split; [exact Hu|].
  pose proof (get_user_bootstrap (utcnow w1) first_admins name (db w1) Hu)
    as Hu1.
  rewrite (admin_command_known update w1 Hu1). cbn [snd sent].
  rewrite is_authorized_false; [reflexivity|].
  left. apply get_admin_none_rows. fold name.
  now rewrite admin_rows_unlisted.
Qed.

Lemma start_then_admin_witness :
  exists u : User.t,
    get_user_by_telegram_id "random"
      (db (snd (start_command (from_user "random") (fresh 0%Z)))) = Some u /\
    sent (snd (admin_command (from_user "random")
                 (snd (start_command (from_user "random") (fresh 0%Z)))))
    = sent (snd (start_command (from_user "random") (fresh 0%Z)))
      ++ [not_authorized_reply (User.language u)].
Proof.
  apply (start_then_admin (from_user "random") (fresh 0%Z)).
  - intros [H|[H|[H|[]]]]; discriminate.
  - reflexivity.
Defined.

(** X10. An identity of the bootstrap list that has no admin row yet and
    sends [admin] gets the admin menu at once: the command has by then
    given it a user row and an admin row that is MASTER and active. *)
Theorem listed_identity_gets_menu (update : Update) (w : World) :
  In (str (from_user_username update)) first_admins ->
  admin_rows (str (from_user_username update)) (db w) = 0 ->
  exists (w' : World) (a : Admin.t) (u : User.t),
    admin_command update w = (Returns tt, w') /\
    sent w' = sent w ++ [admin_menu_reply] /\
    get_admin_by_user_id (str (from_user_username update)) (db w') = Some a /\
    is_master_admin (str (from_user_username update)) a /\
    get_user_by_telegram_id (str (from_user_username update)) (db w') = Some u.
Proof.
  intros Hl H0. set (name := str (from_user_username update)) in *.
  set (d1 := bootstrap (utcnow w) first_admins (db w)).
  destruct (bootstrap_created (utcnow w) first_admins (db w))
    as [created [Ec Hc]]. fold d1 in Ec, Hc.
  pose proof (bootstrap_covers (utcnow w) first_admins (db w) name Hl) as Hge.
  fold d1 in Hge.
  destruct (get_admin_by_user_id name d1) as [a|] eqn:Ea;
    [|apply get_admin_none_rows in Ea; lia].
  assert (Hin : In a created /\ Admin.user_id a = name).
  { unfold get_admin_by_user_id in Ea. rewrite Ec in Ea.
    apply get_admin_none_rows in H0. unfold get_admin_by_user_id in H0.
    rewrite (find_app_none _ _ _ H0) in Ea. apply find_some in Ea.
    destruct Ea as [Hi He]. split; [exact Hi|]. now apply String.eqb_eq. }
  destruct Hin as [Hi Hn]. destruct (Hc a Hi) as [_ [Hm [u Hu]]].
  rewrite Hn in Hm, Hu.
  exists (mkWorld d1 (User.language u) (sent w ++ [admin_menu_reply])
                  (stdout w) (utcnow w)), a, u.
  split.
  - rewrite (admin_command_known update w Hu). fold name d1.
    assert (Hauth : is_authorized name d1 = true).
    { apply is_authorized_iff. exists a. split; [exact Ea|apply Hm]. }
    now rewrite Hauth.
  - cbn [sent db]. auto.
Qed.

Lemma listed_identity_gets_menu_witness :
  exists (w' : World) (a : Admin.t) (u : User.t),
    admin_command (from_user "abualmun") (fresh 0%Z) = (Returns tt, w') /\
    sent w' = sent (fresh 0%Z) ++ [admin_menu_reply] /\
    get_admin_by_user_id "abualmun" (db w') = Some a /\
    is_master_admin "abualmun" a /\
    get_user_by_telegram_id "abualmun" (db w') = Some u.
Proof.
  apply (listed_identity_gets_menu (from_user "abualmun") (fresh 0%Z)).
  - now left.
  - reflexivity.
Defined.

(** X11. The formatter is one object shared by every conversation, but
    the language an earlier handler left in it never shows: what [start]
    and [admin] send and store is the same whatever that language is,
    the language of a reply being set from the caller's row first. *)
Theorem replies_ignore_formatter_language (update : Update) (w : World)
  (lang : option string) :
  (sent (snd (start_command update (with_formatter_language lang w)))
   = sent (snd (start_command update w)) /\
   db (snd (start_command update (with_formatter_language lang w)))
   = db (snd (start_command update w))) /\
  (sent (snd (admin_command update (with_formatter_language lang w)))
   = sent (snd (admin_command update w)) /\
   db (snd (admin_command update (with_formatter_language lang w)))
   = db (snd (admin_command update w))).
Proof.
  split.
  - destruct (get_user_by_telegram_id (str (from_user_username update)) (db w))
      as [u|] eqn:E.
    + rewrite (start_command_known update w E).
      rewrite (start_command_known update (with_formatter_language lang w) E).
      split; reflexivity.
    + rewrite (start_command_new update w E).
      rewrite (start_command_new update (with_formatter_language lang w) E).
      split; reflexivity.
  - destruct (get_user_by_telegram_id (str (from_user_username update))
                (bootstrap (utcnow w) first_admins (db w))) as [u|] eqn:E.
    + rewrite (admin_command_known update w E).
      rewrite (admin_command_known update (with_formatter_language lang w) E).
      split; reflexivity.
    + rewrite (admin_command_unknown update w E).
      rewrite (admin_command_unknown update (with_formatter_language lang w) E).
      split; reflexivity.
Qed.

(* ------------------------------------------------------------------ *)
(** ** The progress bar *)

Lemma filled_length_div (progress : Z) :
  (0 <= progress)%Z -> Progress.filled_length progress = (progress / 5)%Z.
Proof.
  intros H. unfold Progress.filled_length.
  rewrite Z.quot_div_nonneg by lia.
  change 100%Z with (20 * 5)%Z. apply Z.div_mul_cancel_l; lia.
Qed.

Lemma count_occ_repeat_same (g : string) (n : nat) :
  count_occ string_dec (repeat g n) g = n.
Proof.
  induction n as [|n IH]; simpl; [reflexivity|].
  destruct (string_dec g g); [now rewrite IH|contradiction].
Qed.

Lemma count_occ_repeat_other (g h : string) (n : nat) :
  g <> h -> count_occ string_dec (repeat g n) h = 0.
Proof.
  intros D. induction n as [|n IH]; simpl; [reflexivity|].
  destruct (string_dec g h); [contradiction|exact IH].
Qed.

(** X12. For every progress from 0 to 100 the bar is 20 glyphs long:
    progress / 5 (rounded down) full blocks and blanks for the rest; and
    the number of full blocks never goes down as the progress goes up. *)
Theorem progress_bar_shape (progress : Z) :
  (0 <= progress <= 100)%Z ->
  length (Progress.bar progress) = 20 /\
  count_occ string_dec (Progress.bar progress) Progress.block
  = Z.to_nat (progress / 5) /\
  count_occ string_dec (Progress.bar progress) Progress.blank
  = 20 - Z.to_nat (progress / 5) /\
  (forall earlier, (0 <= earlier <= progress)%Z ->
     (Progress.filled_length earlier <= Progress.filled_length progress)%Z).
Proof.
  intros H. unfold Progress.bar, Progress.times.
  rewrite filled_length_div by lia.
  assert (B : (0 <= progress / 5 <= 20)%Z).
  { split; [apply Z.div_pos; lia|].
    apply Z.div_le_upper_bound; lia. }
  assert (D : Progress.block <> Progress.blank) by discriminate.
  split; [|split; [|split]].
  - rewrite length_app, !repeat_length. lia.
  - rewrite count_occ_app, count_occ_repeat_same,
      (count_occ_repeat_other _ (not_eq_sym D)). lia.
  - rewrite count_occ_app, count_occ_repeat_same,
      (count_occ_repeat_other _ D). lia.
  - intros earlier He. rewrite filled_length_div by lia.
    apply Z.div_le_mono; lia.
Qed.

Lemma progress_bar_shape_witness :
  length (Progress.bar 45%Z) = 20 /\
  count_occ string_dec (Progress.bar 45%Z) Progress.block
  = Z.to_nat (45 / 5)%Z /\
  count_occ string_dec (Progress.bar 45%Z) Progress.blank
  = 20 - Z.to_nat (45 / 5)%Z /\
  (forall earlier, (0 <= earlier <= 45)%Z ->
     (Progress.filled_length earlier <= Progress.filled_length 45)%Z).
Proof.
  apply (@progress_bar_shape 45%Z). lia.
Defined.

Lemma while_progress_done (fuel : nat) (progress : Z) (current : string)
  (shown : list string) :
  (100 < progress)%Z ->
  Progress.while_progress fuel progress current shown
  = Some (inr current, shown).
Proof.
  intros H.
  assert (E : (progress <=? 100)%Z = false) by (apply Z.leb_gt; lia).
  destruct fuel; cbn [Progress.while_progress]; now rewrite E.
Qed.

Lemma while_progress_step (fuel : nat) (progress : Z) (current : string)
  (shown : list string) :
  (progress <= 100)%Z ->
  current <> Progress.loading progress ->
  Progress.while_progress (S fuel) progress current shown
  = Progress.while_progress fuel (progress + 5) (Progress.loading progress)
      (shown ++ [Progress.loading progress]).
Proof.
  intros H D.
  assert (E : (progress <=? 100)%Z = true) by (apply Z.leb_le; lia).
  cbn [Progress.while_progress]. rewrite E. unfold Progress.edit_text.
  apply String.eqb_neq in D. now rewrite D.
Qed.

Ltac differ := apply String.eqb_neq; vm_compute; reflexivity.

(** The loop on a message that does not already show the text for 0
    percent: 21 edits, for 0, 5, ..., 100 percent, and then it ends. *)
Lemma while_progress_run (current : string) (shown : list string) (fuel : nat) :
  current <> Progress.loading 0 ->
  Progress.while_progress (21 + fuel) 0 current shown
  = Some (inr (Progress.loading 100),
          shown ++ map (fun k => Progress.loading (5 * Z.of_nat k)) (seq 0 21)).
Proof.
  intros D. cbn [Nat.add].
  rewrite while_progress_step by (lia || exact D).
  do 20 (rewrite while_progress_step; [|simpl; lia|differ]).
  rewrite while_progress_done by (simpl; lia).
  repeat rewrite <- app_assoc. reflexivity.
Qed.

(** X13. [progress_bar] does not get past its first edit.  The first
    loading text is the very text the message was sent with, so the first
    [edit_text] is refused and the handler raises, the message still
    showing its first text.  On a message showing anything else the same
    loop makes its 21 edits, for 0, 5, ..., 100 percent, and ends. *)
Theorem progress_bar_first_edit_refused (fuel : nat) :
  Progress.loading 0 = Progress.first_text /\
  (1 <= fuel ->
   Progress.progress_bar fuel
   = Some (Progress.Raised Progress.BadRequest_message_is_not_modified,
           [Progress.first_text])) /\
  (forall (current : string) (shown : list string),
     21 <= fuel -> current <> Progress.loading 0 ->
     Progress.while_progress fuel 0 current shown
     = Some (inr (Progress.loading 100),
             shown ++ map (fun k => Progress.loading (5 * Z.of_nat k))
                          (seq 0 21))).
Proof.
  split; [reflexivity|]. split.
  - intros H. destruct fuel as [|fuel]; [lia|]. reflexivity.
  - intros current shown H D.
    replace fuel with (21 + (fuel - 21)) by lia.
    now apply while_progress_run.
Qed.

Lemma progress_bar_first_edit_refused_witness :
  Progress.progress_bar 30
  = Some (Progress.Raised Progress.BadRequest_message_is_not_modified,
          [Progress.first_text]) /\
  Progress.while_progress 30 0 "" []
  = Some (inr (Progress.loading 100),
          [] ++ map (fun k => Progress.loading (5 * Z.of_nat k)) (seq 0 21)).
Proof.
  destruct (progress_bar_first_edit_refused 30) as (_ & H1 & H2).
  split; [apply H1; lia|]. apply H2; [lia|discriminate].
Defined.

(* ------------------------------------------------------------------ *)
(** ** Deletes only remove *)

Lemma filter_filter_le {A : Type} (f g : A -> bool) (l : list A) :
  length (filter f (filter g l)) <= length (filter f l).
Proof.
  induction l as [|x l IH]; simpl; [lia|].
  destruct (g x); simpl; destruct (f x); simpl; lia.
Qed.

Section Shrinks.

Variable A : Type.
Variable table : Db -> list A.
Hypothesis delete_row_shrinks :
  forall o d, table (delete_row o d) = table d \/
              exists g, table (delete_row o d) = filter g (table d).

Lemma delete_row_count (f : A -> bool) (o : Obj) (d : Db) :
  length (filter f (table (delete_row o d))) <= length (filter f (table d)).
Proof.
  destruct (delete_row_shrinks o d) as [E|[g E]]; rewrite E; [lia|].
  apply filter_filter_le.
Qed.

Lemma session_delete_count (f : A -> bool) (o : Obj) (d : Db) :
  length (filter f (table (session_delete o d)))
  <= length (filter f (table d)).
Proof.
  unfold session_delete.
  assert (G : forall l d0,
            length (filter f (table (fold_left (fun acc c => delete_row c acc)
                                               l d0)))
            <= length (filter f (table d0))).
  { induction l as [|c l IH]; intros d0; simpl; [lia|].
    eapply Nat.le_trans; [apply IH|apply delete_row_count]. }
  eapply Nat.le_trans; [apply G|apply delete_row_count].
Qed.

End Shrinks.

Ltac shrinks :=
  let o := fresh "o" in let d := fresh "d" in
  intros o d; destruct o; simpl;
  try (left; reflexivity); right; eexists; reflexivity.

Lemma coin_prices_shrink (o : Obj) (d : Db) :
  coin_prices (delete_row o d) = coin_prices d \/
  exists g, coin_prices (delete_row o d) = filter g (coin_prices d).
Proof. revert o d. shrinks. Qed.

Lemma ohlc_shrink (o : Obj) (d : Db) :
  ohlc (delete_row o d) = ohlc d \/
  exists g, ohlc (delete_row o d) = filter g (ohlc d).
Proof. revert o d. shrinks. Qed.

Lemma trending_coins_shrink (o : Obj) (d : Db) :
  trending_coins (delete_row o d) = trending_coins d \/
  exists g, trending_coins (delete_row o d) = filter g (trending_coins d).
Proof. revert o d. shrinks. Qed.

Lemma users_shrink (o : Obj) (d : Db) :
  users (delete_row o d) = users d \/
  exists g, users (delete_row o d) = filter g (users d).
Proof. revert o d. shrinks. Qed.

Lemma admins_shrink (o : Obj) (d : Db) :
  admins (delete_row o d) = admins d \/
  exists g, admins (delete_row o d) = filter g (admins d).
Proof. revert o d. shrinks. Qed.

(** X15. A delete, with all it cascades to, never breaks a unique
    constraint: whatever object is deleted, a store that satisfies the
    unique constraints of database.py satisfies them afterwards. *)
Theorem session_delete_keeps_unique_constraints (o : Obj) (d : Db) :
  unique_constraints d -> unique_constraints (session_delete o d).
Proof.
  intros (U1 & U2 & U3 & U4 & U5). unfold unique_constraints.
  split; [|split; [|split; [|split]]].
  - intros c cur.
    eapply Nat.le_trans;
      [apply (session_delete_count coin_prices coin_prices_shrink)|apply U1].
  - intros c t.
    eapply Nat.le_trans;
      [apply (session_delete_count ohlc ohlc_shrink)|apply U2].
  - intros c.
    eapply Nat.le_trans;
      [apply (session_delete_count trending_coins trending_coins_shrink)
      |apply U3].
  - intros i.
    eapply Nat.le_trans;
      [apply (session_delete_count users users_shrink)|apply U4].
  - intros i.
    eapply Nat.le_trans;
      [apply (session_delete_count admins admins_shrink)|apply U5].
Qed.

Lemma session_delete_keeps_unique_constraints_witness :
  unique_constraints (session_delete (a_Coin btc) sample_db).
Proof.
  apply (session_delete_keeps_unique_constraints (a_Coin btc) (d := sample_db)).
  unfold unique_constraints, unique_coin_currency, unique_coin_timestamp,
    unique_trending_coin, unique_telegram_id, unique_admin_user_id.
  simpl. repeat split; intros;
    repeat match goal with
           | |- context [if ?b then _ else _] => destruct b
           end; simpl; lia.
Defined.

(* ------------------------------------------------------------------ *)
(** ** What the delete of a coin leaves alone *)

Section Same.

Variable A : Type.
Variable table : Db -> list A.
Variable inert : Obj -> Prop.
Hypothesis delete_row_same :
  forall o d, inert o -> table (delete_row o d) = table d.


End Same.

















(* ------------------------------------------------------------------ *)
(** ** The creator of an admin row *)

Lemma admins_bootstrap_one_creator (now : DateTime) (i : string) (d : Db) :
  admins (bootstrap_one now i d) = admins d \/
  exists a, admins (bootstrap_one now i d) = admins d ++ [a] /\
            Admin.created_by a = Some "abualmun".
Proof.
  unfold bootstrap_one. destruct (get_admin_by_user_id i d); [now left|].
  right. eexists. split; [simpl; now rewrite admins_ensure|reflexivity].
Qed.

Lemma bootstrap_creator (now : DateTime) (l : list string) (d : Db) :
  exists created,
    admins (bootstrap now l d) = admins d ++ created /\
    forall a, In a created -> Admin.created_by a = Some "abualmun".
Proof.
  revert d; induction l as [|i l IH]; intros d.
  - exists []. split; [simpl; now rewrite app_nil_r|intros a []].
  - rewrite bootstrap_cons.
    destruct (IH (bootstrap_one now i d)) as [c1 [E1 H1]].
    destruct (admins_bootstrap_one_creator now i d) as [E|[a [E Ha]]].
    + exists c1. now rewrite E1, E.
    + exists (a :: c1). split.
      * rewrite E1, E, <- app_assoc. reflexivity.
      * intros b [<-|Hb]; auto.
Qed.

(** X17. The handlers keep the foreign key of [admins.created_by]: if
    every creator named by an admin row has an admin row before [start]
    or [admin], so it is afterwards.  The bootstrap names "abualmun" as
    creator of every row it adds, the row of "abualmun" itself included,
    and "abualmun" is on the list it bootstraps. *)
Theorem handlers_keep_creators (update : Update) (w : World) :
  admins_have_creators (db w) ->
  admins_have_creators (db (snd (start_command update w))) /\
  admins_have_creators (db (snd (admin_command update w))).
Proof.
  intros F. rewrite start_command_db, admin_command_db.
  assert (G : forall now i d,
            admins_have_creators d -> admins_have_creators (ensure_user now i d)).
  { intros now i d Fd a c Ha Hc. rewrite admins_ensure in Ha.
    rewrite get_admin_ensure. now apply (Fd a c). }
  split; [now apply G|]. apply G.
  destruct (bootstrap_creator (utcnow w) first_admins (db w))
    as [created [E Hcr]].
  intros a c Ha Hc. rewrite E in Ha. apply in_app_or in Ha.
  destruct Ha as [Ha|Ha].
  - destruct (F a c Ha Hc) as [b Hb]. exists b.
    now apply get_admin_bootstrap.
  - rewrite (Hcr a Ha) in Hc. injection Hc as <-.
    pose proof (bootstrap_covers (utcnow w) first_admins (db w) "abualmun"
                  (or_introl eq_refl)) as Hge.
    destruct (get_admin_by_user_id "abualmun"
                (bootstrap (utcnow w) first_admins (db w))) as [b|] eqn:Eb.
    + now exists b.
    + apply get_admin_none_rows in Eb. lia.
Qed.

Lemma handlers_keep_creators_witness :
  admins_have_creators (db (snd (start_command (from_user "alice") (fresh 0%Z)))) /\
  admins_have_creators (db (snd (admin_command (from_user "alice") (fresh 0%Z)))).
Proof.
  apply (handlers_keep_creators (from_user "alice") (fresh 0%Z)).
  intros a c [].
Defined.

(* ------------------------------------------------------------------ *)
(** ** Ownership under every operation *)







